(** * The memory-object subsystem of the NNAPI runtime (runtime/Memory.cpp)

    A shallow embedding of the validators, of [Memory::copy] and of
    [MemoryBuilder] (addRole, setDimensions, finish, allocate), followed by
    the properties of the subsystem.

    Conventions.
    - [uint32_t] values (offsets, lengths, sizes, dimensions, indices, tokens)
      are [N]; an addition that the C++ performs in 32 bits is written with
      its wrap-around ([add32]).
    - Pointers are addresses in [N], [nullptr] is 0.  Objects that are
      compared by address (memories, compilations, prepared models, devices)
      are referred to by their address.
    - [float] is IEEE binary32, through the Standard Library's [spec_float]
      and its comparisons (which answer [false] on a NaN, as C++ does).
    - A failed [CHECK] aborts the process: functions that contain one return
      an [option], [None] being the abort.
    - Collaborators whose code is outside Memory.cpp (TypeManager, the
      driver, the shared-memory platform, the defaults of
      MemoryValidatorBase) are interfaces, given as type classes. *)

From Stdlib Require Import ZArith NArith List Bool Lia.
From Stdlib Require Import Floats.SpecFloat.
From stdpp Require Import base decidable countable option list gmap.

Open Scope N_scope.

(** ** Basic types *)

Definition ptr := N.
Definition nullptr : ptr := 0.

Definition float := spec_float.
(** The literals [0.0f], [1.0f] and [1.5f] in canonical binary32 form. *)
Definition float_0_0 : float := S754_zero false.
Definition float_1_0 : float := S754_finite false 8388608 (-23).
Definition float_1_5 : float := S754_finite false 12582912 (-23).
Definition float_NaN : float := S754_nan.

(** [a + b] on [uint32_t]. *)
Definition add32 (a b : N) : N := (a + b) mod 2 ^ 32.

(** Modelled from the spec: the result codes, which NeuralNetworks.h declares;
    section 6 of the specification lists them as a closed enumeration. *)
Inductive ResultCode :=
| ANEURALNETWORKS_NO_ERROR
| ANEURALNETWORKS_OUT_OF_MEMORY
| ANEURALNETWORKS_UNEXPECTED_NULL
| ANEURALNETWORKS_BAD_DATA
| ANEURALNETWORKS_OP_FAILED
| ANEURALNETWORKS_BAD_STATE
| ANEURALNETWORKS_UNMAPPABLE.

#[global] Instance ResultCode_eq_dec : EqDecision ResultCode.
Proof. solve_decision. Defined.

Inductive IOType := INPUT | OUTPUT.

#[global] Instance IOType_eq_dec : EqDecision IOType.
Proof. solve_decision. Defined.

#[global] Instance IOType_countable : Countable IOType.
Proof.
  refine (inj_countable' (fun t => match t with INPUT => true | OUTPUT => false end)
                         (fun b : bool => if b then INPUT else OUTPUT) _).
  intros []; reflexivity.
Defined.

(** [using CompilationRole = std::tuple<const CompilationBuilder*, IOType, uint32_t>] *)
Definition CompilationRole : Type := ptr * IOType * N.

Definition OperandType := Z.

(** ** Interfaces of the collaborators *)

(** [OperandExtraParams] of the HAL, with its generated [operator==]
    (it holds floats, so nothing is assumed of the comparison). *)
Class HalTypes := {
  ExtraParams : Type;
  extraParams_eqb : ExtraParams -> ExtraParams -> bool
}.

(** [TypeManager::get()->isTensorType] and [->getSizeOfData]. *)
Class TypeManager := {
  isTensorType : OperandType -> bool;
  getSizeOfData : OperandType -> list N -> N
}.

(** What [MemoryValidatorBase] (Memory.h) provides to the validators that do
    not override it: whatever state the base class holds, and its
    [setInitialized], [isInitialized] and [validateInputDimensions]. *)
Class ValidatorBase := {
  Base : Type;
  base_new : Base;
  base_setInitialized : bool -> Base -> Base;
  base_isInitialized : Base -> bool;
  base_validateInputDimensions : Base -> list N -> bool
}.

(** ** Operands and metadata *)

Record Operand `{HalTypes} := mkOperand {
  type : OperandType;
  operand_dimensions : list N;
  scale : float;
  zeroPoint : Z;
  extraParams : ExtraParams
}.

(** The four fields that [addRole] and [updateMetadata] compare, with the
    operators of the source: [==] on floats is [SFeqb]. *)
Definition sameOperandSignature `{HalTypes} (a b : Operand) : bool :=
  (type a =? type b)%Z && SFeqb (scale a) (scale b)
  && (zeroPoint a =? zeroPoint b)%Z && extraParams_eqb (extraParams a) (extraParams b).

(** [operand.type != mOperand->type || operand.scale != mOperand->scale || ...] *)
Definition differentOperandSignature `{HalTypes} (a b : Operand) : bool :=
  negb (type a =? type b)%Z || negb (SFeqb (scale a) (scale b))
  || negb (zeroPoint a =? zeroPoint b)%Z
  || negb (extraParams_eqb (extraParams a) (extraParams b)).

(** [MemoryValidatorBase::Metadata] as Memory.cpp builds and reads it. *)
Record Metadata `{HalTypes} := mkMetadata {
  logicalSize : N;
  md_dimensions : list N;
  md_operand : option Operand
}.

(** ** The dimension combiner *)

Fixpoint combineAxes (lhs rhs : list N) : option (list N) :=
  match lhs, rhs with
  | [], [] => Some []
  | l :: lhs', r :: rhs' =>
      if l =? 0 then cons r <$> combineAxes lhs' rhs'
      else if (r =? 0) || (l =? r) then cons l <$> combineAxes lhs' rhs'
      else None
  | _, _ => None
  end.

(** Modelled from the spec: [combineDimensions], which Utils.cpp defines.
    Section 3 of the specification: an empty (unknown-rank) vector combines to
    exactly the other vector; differing ranks, neither empty, fail; at equal
    rank an axis of value 0 yields the other vector's value and two non-zero
    values must match exactly. *)
Definition combineDimensions (lhs rhs : list N) : option (list N) :=
  match lhs, rhs with
  | _, [] => Some lhs
  | [], _ => Some rhs
  | _, _ => combineAxes lhs rhs
  end.

(** ** Validators *)

(** The three classes of the anonymous namespace.  The first two hold, beside
    their own fields, the state of the base class they do not override; the
    device validator overrides [setInitialized] and [isInitialized] with its
    own flag. *)
Inductive MemoryValidator `{HalTypes} `{ValidatorBase} :=
| SizedMemoryValidator (base : Base) (kSize : N)
| AHardwareBufferNonBlobValidator (base : Base)
| DeviceMemoryValidator (kCompilationRoles : gset CompilationRole)
                        (kOperand : Operand)
                        (kInitialDimensions : list N)
                        (mUpdatedDimensions : list N)
                        (mInitialized : bool).

(** The constructor of [DeviceMemoryValidator]:
    [mUpdatedDimensions(kInitialDimensions)], [mInitialized = false]. *)
Definition newDeviceMemoryValidator `{HalTypes} `{ValidatorBase}
    (roles : gset CompilationRole) (operand : Operand) (dims : list N) : MemoryValidator :=
  DeviceMemoryValidator roles operand dims dims false.

(** [validate(compilation, ioType, index, type, offset, length)]: [len] is
    the length argument and [ty] the dimension array of the
    [ANeuralNetworksOperandType], [None] for a null pointer. *)
Definition validate `{HalTypes} `{ValidatorBase} `{TypeManager} (v : MemoryValidator)
    (compilation : ptr) (ioType : IOType) (index : N)
    (ty : option (list N)) (offset len : N) : bool :=
  match v with
  | SizedMemoryValidator _ kSize =>
      if negb (add32 offset len <=? kSize) then false
      else if negb (negb (offset =? 0) || negb (len =? 0)) then false
      else true
  | AHardwareBufferNonBlobValidator _ =>
      if negb (negb (compilation =? nullptr)) then false
      else if negb ((offset =? 0) && (len =? 0)) then false
      else true
  | DeviceMemoryValidator roles kOperand kInitialDimensions _ _ =>
      if negb (bool_decide ((compilation, ioType, index) ∈ roles)) then false
      else if negb ((offset =? 0) && (len =? 0)) then false
      else match ty with
           | Some dims =>
               if negb (isTensorType (type kOperand) || (N.of_nat (length dims) =? 0))
               then false
               else if negb (bool_decide (is_Some (combineDimensions dims kInitialDimensions)))
               then false
               else true
           | None => true
           end
  end.

Definition validateInputDimensions `{HalTypes} `{ValidatorBase} (v : MemoryValidator)
    (dims : list N) : bool :=
  match v with
  | SizedMemoryValidator base _ => base_validateInputDimensions base dims
  | AHardwareBufferNonBlobValidator base => base_validateInputDimensions base dims
  | DeviceMemoryValidator _ _ _ mUpdatedDimensions mInitialized =>
      if negb mInitialized then false
      else if negb (bool_decide (dims = mUpdatedDimensions)) then false
      else true
  end.

(** [getMetadata]; the device validator starts with [CHECK(mInitialized)]. *)
Definition getMetadata `{HalTypes} `{ValidatorBase} `{TypeManager} (v : MemoryValidator)
    : option Metadata :=
  match v with
  | SizedMemoryValidator _ kSize => Some (mkMetadata _ kSize [] None)
  | AHardwareBufferNonBlobValidator _ => Some (mkMetadata _ 0 [] None)
  | DeviceMemoryValidator _ kOperand _ mUpdatedDimensions mInitialized =>
      if mInitialized
      then Some (mkMetadata _ (getSizeOfData (type kOperand) mUpdatedDimensions)
                            mUpdatedDimensions (Some kOperand))
      else None
  end.

(** [updateMetadata]: the answer and the validator afterwards. *)
Definition updateMetadata `{HalTypes} `{ValidatorBase} `{TypeManager} (v : MemoryValidator)
    (metadata : Metadata) : bool * MemoryValidator :=
  match v with
  | SizedMemoryValidator _ kSize =>
      ((logicalSize metadata =? 0) || (logicalSize metadata =? kSize), v)
  | AHardwareBufferNonBlobValidator _ => (true, v)
  | DeviceMemoryValidator roles kOperand kInitialDimensions mUpdatedDimensions mInitialized =>
      if negb (match md_operand metadata with
               | None => true
               | Some o => sameOperandSignature o kOperand
               end)
      then (false, v)
      else if negb (bool_decide (md_dimensions metadata = [])
                    || isTensorType (type kOperand))
      then (false, v)
      else match combineDimensions (md_dimensions metadata) kInitialDimensions with
           | None => (false, v)
           | Some combined =>
               if negb ((logicalSize metadata =? 0)
                        || (logicalSize metadata =? getSizeOfData (type kOperand) combined))
               then (false, v)
               else (true, DeviceMemoryValidator roles kOperand kInitialDimensions
                                                 combined mInitialized)
           end
  end.

Definition setInitialized `{HalTypes} `{ValidatorBase} (initialized : bool)
    (v : MemoryValidator) : MemoryValidator :=
  match v with
  | SizedMemoryValidator base kSize =>
      SizedMemoryValidator (base_setInitialized initialized base) kSize
  | AHardwareBufferNonBlobValidator base =>
      AHardwareBufferNonBlobValidator (base_setInitialized initialized base)
  | DeviceMemoryValidator roles kOperand kInitialDimensions mUpdatedDimensions _ =>
      DeviceMemoryValidator roles kOperand kInitialDimensions mUpdatedDimensions initialized
  end.

Definition isInitialized `{HalTypes} `{ValidatorBase} (v : MemoryValidator) : bool :=
  match v with
  | SizedMemoryValidator base _ => base_isInitialized base
  | AHardwareBufferNonBlobValidator base => base_isInitialized base
  | DeviceMemoryValidator _ _ _ _ mInitialized => mInitialized
  end.

(** The resolved dimensions a validator holds, if it holds any. *)
Definition updatedDimensions `{HalTypes} `{ValidatorBase} (v : MemoryValidator)
    : option (list N) :=
  match v with
  | DeviceMemoryValidator _ _ _ mUpdatedDimensions _ => Some mUpdatedDimensions
  | _ => None
  end.

(** ** Memory objects *)

(** A [hidl_memory]: whether its handle is valid, and its size.  The bytes of
    the buffers belong to the platform and to the drivers; they are not part
    of the state below, which keeps what the runtime itself decides on. *)
Record hidl_memory := mkHidlMemory {
  hidl_valid : bool;
  hidl_size : N
}.

(** The default-constructed [hidl_memory] of a memory built from an IBuffer. *)
Definition hidl_memory_null : hidl_memory := mkHidlMemory false 0.

(** [mValidator] is a [unique_ptr]: null until a constructor or
    [setValidator] installs one. *)
Record Memory `{HalTypes} `{ValidatorBase} := mkMemory {
  kHidlMemory : hidl_memory;
  kBuffer : ptr;
  kToken : N;
  mValidator : option MemoryValidator
}.

(** [Memory::Memory(hal::hidl_memory memory)]: the size, a [uint64_t], is
    narrowed to the [uint32_t] parameter of the validator. *)
Definition Memory_fromHidlMemory `{HalTypes} `{ValidatorBase} (memory : hidl_memory) : Memory :=
  mkMemory _ _ memory nullptr 0
           (Some (SizedMemoryValidator base_new (hidl_size memory mod 2 ^ 32))).

(** [Memory::Memory(sp<hal::IBuffer> buffer, uint32_t token)] *)
Definition Memory_fromIBuffer `{HalTypes} `{ValidatorBase} (buffer : ptr) (token : N) : Memory :=
  mkMemory _ _ hidl_memory_null buffer token None.

Definition setValidator `{HalTypes} `{ValidatorBase} (m : Memory) (v : MemoryValidator) : Memory :=
  mkMemory _ _ (kHidlMemory m) (kBuffer m) (kToken m) (Some v).

(** The memory objects of the process, by address. *)
Abbreviation Heap := (gmap ptr Memory).

(** The shared-memory platform: [allocateSharedMemory], whether [mapMemory]
    gives a mapping with a non-null pointer, and whether
    [RunTimePoolInfo::createFromHidlMemory] has a value. *)
Class Platform := {
  allocateSharedMemory : N -> hidl_memory;
  mapMemory : hidl_memory -> bool;
  createFromHidlMemory : hidl_memory -> bool
}.

(** The two transfers of an [IBuffer]: [None] when the transport fails
    ([!ret.isOk()]), otherwise the result code that
    [convertErrorStatusToResultCode] gives for the returned status. *)
Class IBufferDriver := {
  IBuffer_copyTo : ptr -> hidl_memory -> option ResultCode;
  IBuffer_copyFrom : ptr -> hidl_memory -> list N -> option ResultCode
}.

Definition copyHidlMemories `{Platform} (src dst : hidl_memory) : ResultCode :=
  if negb (hidl_size src =? hidl_size dst) then ANEURALNETWORKS_BAD_DATA
  else if negb (createFromHidlMemory src) || negb (createFromHidlMemory dst)
  then ANEURALNETWORKS_UNMAPPABLE
  else ANEURALNETWORKS_NO_ERROR.

Definition copyIBufferToHidlMemory `{IBufferDriver} (src : ptr) (dst : hidl_memory) : ResultCode :=
  match IBuffer_copyTo src dst with
  | None => ANEURALNETWORKS_OP_FAILED
  | Some n => n
  end.

Definition copyHidlMemoryToIBuffer `{IBufferDriver} (src : hidl_memory) (dst : ptr)
    (dims : list N) : ResultCode :=
  match IBuffer_copyFrom dst src dims with
  | None => ANEURALNETWORKS_OP_FAILED
  | Some n => n
  end.

Definition copyIBuffers `{HalTypes} `{Platform} `{IBufferDriver} (src dst : ptr)
    (srcMetadata : Metadata) : ResultCode :=
  let hidlMemory := allocateSharedMemory (logicalSize srcMetadata) in
  if negb (hidl_valid hidlMemory) then ANEURALNETWORKS_OUT_OF_MEMORY
  else
    let n := copyIBufferToHidlMemory src hidlMemory in
    if negb (bool_decide (n = ANEURALNETWORKS_NO_ERROR)) then n
    else
      let n := copyHidlMemoryToIBuffer hidlMemory dst (md_dimensions srcMetadata) in
      if negb (bool_decide (n = ANEURALNETWORKS_NO_ERROR)) then n
      else ANEURALNETWORKS_NO_ERROR.

(** [getValidator()] on the object at an address: a reference is never
    dangling and the validator is there ([CHECK]), else the process aborts. *)
Definition getValidator `{HalTypes} `{ValidatorBase} (h : Heap) (p : ptr)
    : option MemoryValidator :=
  m ← h !! p; mValidator m.

(** Writing through the reference that [getValidator()] returns. *)
Definition storeValidator `{HalTypes} `{ValidatorBase} (h : Heap) (p : ptr)
    (v : MemoryValidator) : Heap :=
  match h !! p with
  | Some m => <[p := setValidator m v]> h
  | None => h
  end.

(** [copyInternal(src, dst)]: the result code and the heap afterwards
    ([updateMetadata] may have written the destination's validator). *)
Definition copyInternal `{HalTypes} `{ValidatorBase} `{TypeManager} `{Platform}
    `{IBufferDriver} (h : Heap) (src dst : ptr) : option (ResultCode * Heap) :=
  if bool_decide (src = dst) then Some (ANEURALNETWORKS_NO_ERROR, h)
  else
    srcValidator ← getValidator h src;
    if negb (isInitialized srcValidator) then Some (ANEURALNETWORKS_BAD_DATA, h)
    else
      srcMetadata ← getMetadata srcValidator;
      dstValidator ← getValidator h dst;
      let '(ok, dstValidator') := updateMetadata dstValidator srcMetadata in
      let h' := storeValidator h dst dstValidator' in
      if negb ok then Some (ANEURALNETWORKS_BAD_DATA, h')
      else
        s ← h !! src;
        d ← h !! dst;
        let srcHasHidlMemory := hidl_valid (kHidlMemory s) in
        let dstHasHidlMemory := hidl_valid (kHidlMemory d) in
        let srcHasIBuffer := negb (kBuffer s =? nullptr) in
        let dstHasIBuffer := negb (kBuffer d =? nullptr) in
        if srcHasIBuffer && dstHasIBuffer
        then Some (copyIBuffers (kBuffer s) (kBuffer d) srcMetadata, h')
        else if srcHasHidlMemory && dstHasHidlMemory
        then Some (copyHidlMemories (kHidlMemory s) (kHidlMemory d), h')
        else if srcHasHidlMemory && dstHasIBuffer
        then Some (copyHidlMemoryToIBuffer (kHidlMemory s) (kBuffer d)
                                           (md_dimensions srcMetadata), h')
        else if srcHasIBuffer && dstHasHidlMemory
        then Some (copyIBufferToHidlMemory (kBuffer s) (kHidlMemory d), h')
        else Some (ANEURALNETWORKS_OP_FAILED, h').

(** [Memory::copy(src, dst)] *)
Definition copy `{HalTypes} `{ValidatorBase} `{TypeManager} `{Platform}
    `{IBufferDriver} (h : Heap) (src dst : ptr) : option (ResultCode * Heap) :=
  '(n, h1) ← copyInternal h src dst;
  dstValidator ← getValidator h1 dst;
  Some (n, storeValidator h1 dst
             (setInitialized (bool_decide (n = ANEURALNETWORKS_NO_ERROR)) dstValidator)).

(** ** Memory descriptors and their builder *)

Record BufferRole := mkBufferRole {
  modelIndex : N;
  ioIndex : N;
  frequency : float
}.

Record MemoryDescriptor := mkMemoryDescriptor {
  dimensions : list N;
  preparedModels : list ptr;
  inputRoles : list BufferRole;
  outputRoles : list BufferRole
}.

(** Position of the first occurrence of [p], counted from [i]. *)
Fixpoint indexFrom (i : N) (p : ptr) (objects : list ptr) : option N :=
  match objects with
  | [] => None
  | q :: rest => if q =? p then Some i else indexFrom (N.succ i) p rest
  end.

(** Modelled from the spec: [preparedModels.add], of the tracker type that
    Memory.h declares.  The specification calls the field the descriptor's
    prepared-model set, and each [BufferRole] refers to a prepared model by
    [modelIndex]: adding returns the index of the object, appending it when
    it is not in the set yet. *)
Definition preparedModels_add (objects : list ptr) (p : ptr) : N * list ptr :=
  match indexFrom 0 p objects with
  | Some i => (i, objects)
  | None => (N.of_nat (length objects), objects ++ [p])
  end.

(** What Memory.cpp uses of a [ModelBuilder]. *)
Record ModelBuilder `{HalTypes} := mkModelBuilder {
  inputOperands : list Operand;
  outputOperands : list Operand
}.

Definition inputCount `{HalTypes} (m : ModelBuilder) : N := N.of_nat (length (inputOperands m)).
Definition outputCount `{HalTypes} (m : ModelBuilder) : N := N.of_nat (length (outputOperands m)).
Definition getInputOperand `{HalTypes} (m : ModelBuilder) (i : N) : option Operand :=
  inputOperands m !! N.to_nat i.
Definition getOutputOperand `{HalTypes} (m : ModelBuilder) (i : N) : option Operand :=
  outputOperands m !! N.to_nat i.

(** A step role handed to the callback of [forEachStepRoleOf...]. *)
Definition StepRole : Type := ptr * IOType * N.

(** What Memory.cpp uses of a [CompilationBuilder]: for an index, the result
    code of [forEachStepRoleOfInput] / [...Output] and the step roles it
    passes to the callback, in order; and its model, which is never null
    ([CHECK(model != nullptr)]). *)
Record CompilationBuilder `{HalTypes} := mkCompilationBuilder {
  forEachStepRoleOfInput : N -> ResultCode * list StepRole;
  forEachStepRoleOfOutput : N -> ResultCode * list StepRole;
  getModel : ModelBuilder
}.

Record MemoryBuilder `{HalTypes} := mkMemoryBuilder {
  mDesc : MemoryDescriptor;
  mRoles : gset CompilationRole;
  mOperand : option Operand;
  mFinished : bool;
  mAllocator : ptr
}.

(** A builder as [ANeuralNetworksMemoryDesc_create] makes it. *)
Definition MemoryBuilder_new `{HalTypes} : MemoryBuilder :=
  mkMemoryBuilder _ (mkMemoryDescriptor [] [] [] []) ∅ None false nullptr.

Definition badState `{HalTypes} (b : MemoryBuilder) : bool :=
  if mFinished b then true else false.

(** The body of the loop at the end of [addRole], for one step role. *)
Definition addStepRole (freq : float) (desc : MemoryDescriptor) (r : StepRole)
    : MemoryDescriptor :=
  let '(preparedModel, ty, ind) := r in
  let '(modelIndex, models) := preparedModels_add (preparedModels desc) preparedModel in
  let role := mkBufferRole modelIndex ind freq in
  match ty with
  | INPUT => mkMemoryDescriptor (dimensions desc) models
                                (inputRoles desc ++ [role]) (outputRoles desc)
  | OUTPUT => mkMemoryDescriptor (dimensions desc) models
                                 (inputRoles desc) (outputRoles desc ++ [role])
  end.

(** [MemoryBuilder::addRole(compilation, ioType, index, freq)]: the
    compilation is given by its address, which is what the role records, and
    by its content.  The operand is read only where the index is below the
    count, so that the lookup in the list finds it. *)
Definition addRole `{HalTypes} `{TypeManager} (b : MemoryBuilder)
    (pCompilation : ptr) (compilation : CompilationBuilder)
    (ioType : IOType) (index : N) (freq : float) : ResultCode * MemoryBuilder :=
  if badState b then (ANEURALNETWORKS_BAD_STATE, b)
  else if bool_decide ((pCompilation, ioType, index) ∈ mRoles b)
  then (ANEURALNETWORKS_BAD_DATA, b)
  else
    let '(n, roles) := match ioType with
                       | INPUT => forEachStepRoleOfInput compilation index
                       | OUTPUT => forEachStepRoleOfOutput compilation index
                       end in
    if negb (bool_decide (n = ANEURALNETWORKS_NO_ERROR)) then (ANEURALNETWORKS_BAD_DATA, b)
    else
      let model := getModel compilation in
      match (match ioType with
             | INPUT => if inputCount model <=? index then None
                        else getInputOperand model index
             | OUTPUT => if outputCount model <=? index then None
                         else getOutputOperand model index
             end) with
      | None => (ANEURALNETWORKS_BAD_DATA, b)
      | Some operand =>
          if match mOperand b with
             | Some o => differentOperandSignature operand o
             | None => false
             end
          then (ANEURALNETWORKS_BAD_DATA, b)
          else if negb (isTensorType (type operand))
                  && negb (bool_decide (dimensions (mDesc b) = []))
          then (ANEURALNETWORKS_BAD_DATA, b)
          else match combineDimensions (dimensions (mDesc b)) (operand_dimensions operand) with
               | None => (ANEURALNETWORKS_BAD_DATA, b)
               | Some combined =>
                   if SFltb float_1_0 freq || SFleb freq float_0_0
                   then (ANEURALNETWORKS_BAD_DATA, b)
                   else
                     let desc := fold_left (addStepRole freq) roles (mDesc b) in
                     (ANEURALNETWORKS_NO_ERROR,
                      mkMemoryBuilder _
                        (mkMemoryDescriptor combined (preparedModels desc)
                                            (inputRoles desc) (outputRoles desc))
                        ({[ (pCompilation, ioType, index) ]} ∪ mRoles b)
                        (Some operand) (mFinished b) (mAllocator b))
               end
      end.

(** [MemoryBuilder::setDimensions(dimensions)] *)
Definition setDimensions `{HalTypes} `{TypeManager} (b : MemoryBuilder) (dims : list N)
    : ResultCode * MemoryBuilder :=
  if badState b then (ANEURALNETWORKS_BAD_STATE, b)
  else if match mOperand b with
          | Some o => negb (isTensorType (type o)) && negb (bool_decide (dims = []))
          | None => false
          end
  then (ANEURALNETWORKS_BAD_DATA, b)
  else match combineDimensions (dimensions (mDesc b)) dims with
       | None => (ANEURALNETWORKS_BAD_DATA, b)
       | Some combined =>
           (ANEURALNETWORKS_NO_ERROR,
            mkMemoryBuilder _
              (mkMemoryDescriptor combined (preparedModels (mDesc b))
                                  (inputRoles (mDesc b)) (outputRoles (mDesc b)))
              (mRoles b) (mOperand b) (mFinished b) (mAllocator b))
       end.

(** The driver side of a descriptor: the device of a prepared model and
    [Device::allocate]. *)
Class DeviceDriver `{HalTypes} `{ValidatorBase} := {
  PreparedModel_getDevice : ptr -> ptr;
  Device_allocate : ptr -> MemoryDescriptor -> ResultCode * option Memory
}.

(** The loop of [selectDeviceMemoryAllocator]: [inl r] when the loop body
    returns [r], [inr allocator] when the loop runs to its end. *)
Fixpoint selectDeviceLoop `{HalTypes} `{ValidatorBase} `{!DeviceDriver}
    (allocator : ptr) (models : list ptr) : ptr + ptr :=
  match models with
  | [] => inr allocator
  | preparedModel :: rest =>
      let device := PreparedModel_getDevice preparedModel in
      if allocator =? nullptr then selectDeviceLoop device rest
      else if negb (allocator =? device) then inl nullptr
      else selectDeviceLoop allocator rest
  end.

(** [selectDeviceMemoryAllocator(desc)]; [None] is the failed
    [CHECK(allocator != nullptr)]. *)
Definition selectDeviceMemoryAllocator `{HalTypes} `{ValidatorBase} `{!DeviceDriver}
    (desc : MemoryDescriptor) : option ptr :=
  match selectDeviceLoop nullptr (preparedModels desc) with
  | inl r => Some r
  | inr allocator => if allocator =? nullptr then None else Some allocator
  end.

(** [MemoryBuilder::finish()]; [None] is a failed [CHECK]. *)
Definition finish `{HalTypes} `{ValidatorBase} `{!DeviceDriver} (b : MemoryBuilder)
    : option (ResultCode * MemoryBuilder) :=
  if badState b then Some (ANEURALNETWORKS_BAD_STATE, b)
  else if bool_decide (mRoles b = ∅) then Some (ANEURALNETWORKS_BAD_DATA, b)
  else
    _ ← mOperand b;
    allocator ← selectDeviceMemoryAllocator (mDesc b);
    Some (ANEURALNETWORKS_NO_ERROR,
          mkMemoryBuilder _ (mDesc b) (mRoles b) (mOperand b) true allocator).

(** The calls that [allocate] makes to the outside, in order. *)
Inductive AllocationCall :=
| CallDeviceAllocate (device : ptr)
| CallMemoryAshmemCreate (size : N).

(** [MemoryAshmem::create(size)] *)
Definition MemoryAshmem_create `{HalTypes} `{ValidatorBase} `{Platform} (size : N)
    : ResultCode * option Memory :=
  let hidlMemory := allocateSharedMemory size in
  if negb (mapMemory hidlMemory) then (ANEURALNETWORKS_OUT_OF_MEMORY, None)
  else (ANEURALNETWORKS_NO_ERROR, Some (Memory_fromHidlMemory hidlMemory)).

(** [MemoryBuilder::allocate()]: the pair it returns and the calls it made;
    [None] is a failed [CHECK]. *)
Definition allocate `{HalTypes} `{ValidatorBase} `{TypeManager} `{Platform} `{!DeviceDriver}
    (b : MemoryBuilder) : option (ResultCode * option Memory * list AllocationCall) :=
  if negb (mFinished b) then Some (ANEURALNETWORKS_BAD_STATE, None, [])
  else
    operand ← mOperand b;
    let size := getSizeOfData (type operand) (dimensions (mDesc b)) in
    if size =? 0 then Some (ANEURALNETWORKS_OP_FAILED, None, [])
    else
      let '(n, memory, calls) :=
        if negb (mAllocator b =? nullptr)
        then let '(n, memory) := Device_allocate (mAllocator b) (mDesc b) in
             (n, memory, [CallDeviceAllocate (mAllocator b)])
        else (ANEURALNETWORKS_OP_FAILED, None, []) in
      let '(n, memory, calls) :=
        if negb (bool_decide (n = ANEURALNETWORKS_NO_ERROR))
        then let '(n, memory) := MemoryAshmem_create size in
             (n, memory, calls ++ [CallMemoryAshmemCreate size])
        else (n, memory, calls) in
      if bool_decide (n = ANEURALNETWORKS_NO_ERROR)
      then
        m ← memory;
        Some (n, Some (setValidator m (newDeviceMemoryValidator
                                         (mRoles b) operand (dimensions (mDesc b)))),
              calls)
      else Some (n, memory, calls).

(** ** Sequences of calls on a builder *)

(** A call that modifies a descriptor before it is finished. *)
Inductive BuilderCall `{HalTypes} :=
| DoAddRole (pCompilation : ptr) (compilation : CompilationBuilder)
            (ioType : IOType) (index : N) (freq : float)
| DoSetDimensions (dims : list N).

Definition runCall `{HalTypes} `{TypeManager} (b : MemoryBuilder) (c : BuilderCall)
    : MemoryBuilder :=
  match c with
  | DoAddRole p compilation ioType index freq =>
      snd (addRole b p compilation ioType index freq)
  | DoSetDimensions dims => snd (setDimensions b dims)
  end.

Definition runCalls `{HalTypes} `{TypeManager} (b : MemoryBuilder) (cs : list BuilderCall)
    : MemoryBuilder :=
  fold_left runCall cs b.

(** The builders that exist: a new one, and what [addRole], [setDimensions]
    and [finish] make of one that exists. *)
Inductive reachable `{HalTypes} `{ValidatorBase} `{TypeManager} `{!DeviceDriver}
    : MemoryBuilder -> Prop :=
| reachable_new : reachable MemoryBuilder_new
| reachable_call b c : reachable b -> reachable (runCall b c)
| reachable_finish b n b' : reachable b -> finish b = Some (n, b') -> reachable b'.

(** What holds of every builder that exists: a descriptor with prepared
    models has roles, a builder with roles has its operand, so has a finished
    one, and one that is not finished has no allocator. *)
Definition builderInvariant `{HalTypes} (b : MemoryBuilder) : Prop :=
  (preparedModels (mDesc b) <> [] -> mRoles b <> ∅)
  /\ (mRoles b <> ∅ -> is_Some (mOperand b))
  /\ (mFinished b = true -> is_Some (mOperand b))
  /\ (mFinished b = false -> mAllocator b = nullptr).

(** The roles of a descriptor span two devices: two of its prepared models
    have different devices.  Every prepared model has a device. *)
Definition spansTwoDevices `{HalTypes} `{ValidatorBase} `{!DeviceDriver}
    (desc : MemoryDescriptor) : Prop :=
  (forall pm, pm ∈ preparedModels desc -> PreparedModel_getDevice pm <> nullptr)
  /\ exists pm1 pm2, pm1 ∈ preparedModels desc /\ pm2 ∈ preparedModels desc
                     /\ PreparedModel_getDevice pm1 <> PreparedModel_getDevice pm2.

(** The first check of [DeviceMemoryValidator::updateMetadata]: the metadata
    carries no operand, or one of the same type, scale, zero point and extra
    parameters. *)
Definition operandAccepted `{HalTypes} (metadata : Metadata) (kOperand : Operand) : Prop :=
  match md_operand metadata with
  | None => True
  | Some o => sameOperandSignature o kOperand = true
  end.

Definition isDeviceMemoryValidator `{HalTypes} `{ValidatorBase} (v : MemoryValidator) : bool :=
  match v with
  | DeviceMemoryValidator _ _ _ _ _ => true
  | _ => false
  end.

(** ** A concrete runtime, for evaluation

    Operands without extra parameters; the first operand codes of the NNAPI
    (FLOAT32 = 0, INT32 = 1, UINT32 = 2, TENSOR_FLOAT32 = 3, TENSOR_INT32 = 4),
    four bytes an element, a tensor of unknown rank having size 0; a platform
    where allocation and mapping succeed; drivers that succeed; prepared
    models 16 and 17 on device 1, prepared model 32 on device 2. *)

Definition ex_HalTypes : HalTypes :=
  {| ExtraParams := unit; extraParams_eqb := fun _ _ => true |}.

Definition ex_TypeManager : TypeManager :=
  {| isTensorType := fun t => (3 <=? t)%Z && (t <=? 4)%Z;
     getSizeOfData := fun t dims =>
       if (3 <=? t)%Z && (t <=? 4)%Z
       then match dims with [] => 0 | _ => fold_left N.mul dims 4 end
       else 4 |}.

(** The defaults of [MemoryValidatorBase]: it keeps no flag, its
    [setInitialized] does nothing, and its [isInitialized] and
    [validateInputDimensions] answer true. *)
Definition ex_ValidatorBase : ValidatorBase :=
  {| Base := unit;
     base_new := tt;
     base_setInitialized := fun _ s => s;
     base_isInitialized := fun _ => true;
     base_validateInputDimensions := fun _ _ => true |}.

Definition ex_Platform : Platform :=
  {| allocateSharedMemory := fun size => mkHidlMemory true size;
     mapMemory := hidl_valid;
     createFromHidlMemory := hidl_valid |}.

Definition ex_IBufferDriver : IBufferDriver :=
  {| IBuffer_copyTo := fun _ _ => Some ANEURALNETWORKS_NO_ERROR;
     IBuffer_copyFrom := fun _ _ _ => Some ANEURALNETWORKS_NO_ERROR |}.

Definition ex_DeviceDriver : @DeviceDriver ex_HalTypes ex_ValidatorBase :=
  {| PreparedModel_getDevice := fun pm => pm / 16;
     Device_allocate := fun device _ =>
       (ANEURALNETWORKS_NO_ERROR,
        Some (@Memory_fromIBuffer ex_HalTypes ex_ValidatorBase (device + 100) 1)) |}.

(** A TENSOR_FLOAT32 operand of the given dimensions. *)
Definition ex_tensor (dims : list N) : @Operand ex_HalTypes :=
  @mkOperand ex_HalTypes 3%Z dims float_0_0 0%Z tt.

(** A model with one input of shape [1,4,4,3] and one output of shape
    [0,4,4,3]. *)
Definition ex_model : @ModelBuilder ex_HalTypes :=
  @mkModelBuilder ex_HalTypes [ex_tensor [1; 4; 4; 3]] [ex_tensor [0; 4; 4; 3]].

(** A compilation of [ex_model] in one step, prepared model 16 (device 1). *)
Definition ex_compilation : @CompilationBuilder ex_HalTypes :=
  @mkCompilationBuilder ex_HalTypes
    (fun i => (ANEURALNETWORKS_NO_ERROR, [(16, INPUT, i)]))
    (fun i => (ANEURALNETWORKS_NO_ERROR, [(16, OUTPUT, i)]))
    ex_model.

(** A model whose only input and output have an unknown first axis, and two
    compilations of it: one on prepared model 16 (device 1), one on prepared
    model 32 (device 2). *)
Definition ex_model_dynamic : @ModelBuilder ex_HalTypes :=
  @mkModelBuilder ex_HalTypes [ex_tensor [0; 4]] [ex_tensor [0; 4]].

Definition ex_compilation_dev1 : @CompilationBuilder ex_HalTypes :=
  @mkCompilationBuilder ex_HalTypes
    (fun i => (ANEURALNETWORKS_NO_ERROR, [(16, INPUT, i)]))
    (fun i => (ANEURALNETWORKS_NO_ERROR, [(16, OUTPUT, i)]))
    ex_model_dynamic.

Definition ex_compilation_dev2 : @CompilationBuilder ex_HalTypes :=
  @mkCompilationBuilder ex_HalTypes
    (fun i => (ANEURALNETWORKS_NO_ERROR, [(32, INPUT, i)]))
    (fun i => (ANEURALNETWORKS_NO_ERROR, [(32, OUTPUT, i)]))
    ex_model_dynamic.

(** The descriptor after an output role on the compilation at address 1000
    (device 1) and an input role on the compilation at address 2000
    (device 2): its dimensions are [0,4]. *)
Definition ex_builder_two_devices : @MemoryBuilder ex_HalTypes :=
  @runCalls ex_HalTypes ex_TypeManager (@MemoryBuilder_new ex_HalTypes)
    [ @DoAddRole ex_HalTypes 1000 ex_compilation_dev1 OUTPUT 0 float_1_0;
      @DoAddRole ex_HalTypes 2000 ex_compilation_dev2 INPUT 0 float_1_0 ].

(** The same with the dimensions set to [2,4] afterwards. *)
Definition ex_builder_two_devices_sized : @MemoryBuilder ex_HalTypes :=
  @runCall ex_HalTypes ex_TypeManager ex_builder_two_devices
    (@DoSetDimensions ex_HalTypes [2; 4]).

(** That descriptor as [finish] leaves it: finished, with no allocator. *)
Definition ex_builder_two_devices_finished : @MemoryBuilder ex_HalTypes :=
  @mkMemoryBuilder ex_HalTypes
    (mDesc ex_builder_two_devices_sized) (mRoles ex_builder_two_devices_sized)
    (mOperand ex_builder_two_devices_sized) true nullptr.

(** The descriptor of the end-to-end scenario of the specification: an input
    role of shape [1,4,4,3] and an output role of shape [0,4,4,3] on the same
    compilation. *)
Definition ex_builder_scenario : @MemoryBuilder ex_HalTypes :=
  @runCalls ex_HalTypes ex_TypeManager (@MemoryBuilder_new ex_HalTypes)
    [ @DoAddRole ex_HalTypes 1000 ex_compilation INPUT 0 float_1_0;
      @DoAddRole ex_HalTypes 1000 ex_compilation OUTPUT 0 float_1_0 ].

(** A memory allocated from a descriptor and never written: its validator
    is as [allocate] installs it. *)
Definition ex_device_memory : @Memory ex_HalTypes ex_ValidatorBase :=
  @setValidator ex_HalTypes ex_ValidatorBase
    (@Memory_fromIBuffer ex_HalTypes ex_ValidatorBase 101 1)
    (@newDeviceMemoryValidator ex_HalTypes ex_ValidatorBase
       {[ (1000, OUTPUT, 0) ]} (ex_tensor [2; 4]) [2; 4]).

(** The same memory after a successful write. *)
Definition ex_device_memory_written : @Memory ex_HalTypes ex_ValidatorBase :=
  @setValidator ex_HalTypes ex_ValidatorBase
    (@Memory_fromIBuffer ex_HalTypes ex_ValidatorBase 102 2)
    (@DeviceMemoryValidator ex_HalTypes ex_ValidatorBase
       {[ (1000, OUTPUT, 0) ]} (ex_tensor [2; 4]) [2; 4] [2; 4] true).

(** A shared-memory region of 16 bytes. *)
Definition ex_ashmem_16 : @Memory ex_HalTypes ex_ValidatorBase :=
  @Memory_fromHidlMemory ex_HalTypes ex_ValidatorBase (mkHidlMemory true 16).

(** A heap with the shared-memory region at address 7 and the written device
    memory at address 8. *)
Definition ex_heap : gmap ptr (@Memory ex_HalTypes ex_ValidatorBase) :=
  {[ 7 := ex_ashmem_16; 8 := ex_device_memory_written ]}.

(** A heap with the device memory that was never written, at address 7. *)
Definition ex_heap_unwritten : gmap ptr (@Memory ex_HalTypes ex_ValidatorBase) :=
  {[ 7 := ex_device_memory ]}.

(** Metadata of a TENSOR_INT32 operand (code 4) of 32 bytes. *)
Definition ex_metadata_int32 : @Metadata ex_HalTypes :=
  @mkMetadata ex_HalTypes 32 [2; 4]
    (Some (@mkOperand ex_HalTypes 4%Z [2; 4] float_0_0 0%Z tt)).

(** ** The other constructors and accessors of Memory.cpp *)

(** [hal::Request::MemoryPool], a union of a token and a [hidl_memory]. *)
Inductive MemoryPool :=
| MemoryPool_token (token : N)
| MemoryPool_hidlMemory (memory : hidl_memory).

(** [Memory::getMemoryPool()] *)
Definition getMemoryPool `{HalTypes} `{ValidatorBase} (m : Memory) : MemoryPool :=
  if 0 <? kToken m then MemoryPool_token (kToken m)
  else MemoryPool_hidlMemory (kHidlMemory m).

(** [Memory::Memory(hal::hidl_memory memory, std::unique_ptr<MemoryValidatorBase> validator)] *)
Definition Memory_fromHidlMemoryAndValidator `{HalTypes} `{ValidatorBase}
    (memory : hidl_memory) (validator : MemoryValidator) : Memory :=
  mkMemory _ _ memory nullptr 0 (Some validator).

(** [MemoryFromDevice::create(buffer, token)]; on a [uint32_t],
    [token <= 0] is [token == 0]. *)
Definition MemoryFromDevice_create `{HalTypes} `{ValidatorBase} (buffer : ptr) (token : N)
    : ResultCode * option Memory :=
  if buffer =? nullptr then (ANEURALNETWORKS_BAD_DATA, None)
  else if token <=? 0 then (ANEURALNETWORKS_BAD_DATA, None)
  else (ANEURALNETWORKS_NO_ERROR, Some (Memory_fromIBuffer buffer token)).

(** What [MemoryAHWB::create] reads of an [AHardwareBuffer]: the format and
    the width of its description, and its native handle. *)
Record AHardwareBuffer := mkAHardwareBuffer {
  ahwb_format : N;
  ahwb_width : N;
  ahwb_nativeHandle : ptr
}.

(** The format code of the platform header. *)
Class AHardwareBufferApi := {
  AHARDWAREBUFFER_FORMAT_BLOB : N
}.

(** [hidl_memory(name, handle, size)]: valid when the handle is not null. *)
Definition hidl_memory_fromHandle (handle : ptr) (size : N) : hidl_memory :=
  mkHidlMemory (negb (handle =? nullptr)) size.

(** [MemoryAHWB::create(ahwb)] *)
Definition MemoryAHWB_create `{HalTypes} `{ValidatorBase} `{AHardwareBufferApi}
    (ahwb : AHardwareBuffer) : ResultCode * option Memory :=
  let handle := ahwb_nativeHandle ahwb in
  let '(hidlMemory, validator) :=
    if ahwb_format ahwb =? AHARDWAREBUFFER_FORMAT_BLOB
    then (hidl_memory_fromHandle handle (ahwb_width ahwb),
          SizedMemoryValidator base_new (ahwb_width ahwb))
    else (hidl_memory_fromHandle handle 0,
          AHardwareBufferNonBlobValidator base_new) in
  (ANEURALNETWORKS_NO_ERROR, Some (Memory_fromHidlMemoryAndValidator hidlMemory validator)).

(** The two system calls of [MemoryFd::create]: [dup], which answers -1 when
    it fails, and whether [native_handle_create] gives a handle. *)
Class Posix := {
  dup : Z -> Z;
  native_handle_create : N -> N -> bool
}.

(** The [data] array of a [native_handle_t]. *)
Record native_handle_t := mkNativeHandle {
  nh_data : list Z
}.

(** [(int32_t)x] for a [uint32_t] [x]. *)
Definition to_int32 (x : Z) : Z := (if x <? 2 ^ 31 then x else x - 2 ^ 32)%Z.

(** [MemoryFd::create(size, prot, fd, offset)].  The memory that is returned
    owns the native handle through its [hidl_memory]; the handle is given
    beside it.  [size] and [offset] are [size_t], [prot] and [fd] are
    [int]. *)
Definition MemoryFd_create `{HalTypes} `{ValidatorBase} `{Posix}
    (size : N) (prot fd : Z) (offset : N)
    : ResultCode * option (native_handle_t * Memory) :=
  if (size =? 0) || (fd <? 0)%Z then (ANEURALNETWORKS_BAD_DATA, None)
  else
    let dupfd := dup fd in
    if (dupfd =? -1)%Z then (ANEURALNETWORKS_UNEXPECTED_NULL, None)
    else if negb (native_handle_create 1 3) then (ANEURALNETWORKS_UNEXPECTED_NULL, None)
    else
      let bits := (Z.of_N offset mod 2 ^ 64)%Z in
      let nativeHandle :=
        mkNativeHandle [ dupfd; prot;
                         to_int32 (Z.land bits 4294967295 mod 2 ^ 32)%Z;
                         to_int32 (Z.shiftr bits 32 mod 2 ^ 32)%Z ] in
      (ANEURALNETWORKS_NO_ERROR,
       Some (nativeHandle, Memory_fromHidlMemory (mkHidlMemory true size))).

(** The 64-bit number that [data[2]] and [data[3]] of a handle stand for:
    the two [int] taken as [uint32_t], low word first. *)
Definition nativeHandle_offset (h : native_handle_t) : option Z :=
  match nh_data h with
  | [_; _; lo; hi] => Some (lo mod 2 ^ 32 + (hi mod 2 ^ 32) * 2 ^ 32)%Z
  | _ => None
  end.

(** The frequency check of [addRole], passed: the frequency is neither above
    1.0 nor at most 0.0. *)
Definition frequencyPassed (role : BufferRole) : Prop :=
  SFltb float_1_0 (frequency role) = false /\ SFleb (frequency role) float_0_0 = false.

(** ** More of the concrete runtime *)

(** A compilation of [ex_model] that names no step for any input or
    output. *)
Definition ex_compilation_no_steps : @CompilationBuilder ex_HalTypes :=
  @mkCompilationBuilder ex_HalTypes
    (fun _ => (ANEURALNETWORKS_NO_ERROR, []))
    (fun _ => (ANEURALNETWORKS_NO_ERROR, []))
    ex_model.

(** The descriptor after an input role on that compilation. *)
Definition ex_builder_no_steps : @MemoryBuilder ex_HalTypes :=
  @runCalls ex_HalTypes ex_TypeManager (@MemoryBuilder_new ex_HalTypes)
    [ @DoAddRole ex_HalTypes 1000 ex_compilation_no_steps INPUT 0 float_1_0 ].

Definition ex_AHardwareBufferApi : AHardwareBufferApi :=
  {| AHARDWAREBUFFER_FORMAT_BLOB := 33 |}.

Definition ex_Posix : Posix :=
  {| dup := fun fd => (fd + 100)%Z;
     native_handle_create := fun _ _ => true |}.

(** The descriptor of the scenario as [finish] leaves it: device 1 is the
    allocator. *)
Definition ex_builder_scenario_finished : @MemoryBuilder ex_HalTypes :=
  @mkMemoryBuilder ex_HalTypes
    (mDesc ex_builder_scenario) (mRoles ex_builder_scenario)
    (mOperand ex_builder_scenario) true 1.

(** The memory that [allocate] returns for it; the operand of the validator
    is the operand of the role that was added last. *)
Definition ex_scenario_memory : @Memory ex_HalTypes ex_ValidatorBase :=
  @setValidator ex_HalTypes ex_ValidatorBase
    (@Memory_fromIBuffer ex_HalTypes ex_ValidatorBase 101 1)
    (@newDeviceMemoryValidator ex_HalTypes ex_ValidatorBase
       (mRoles ex_builder_scenario) (ex_tensor [0; 4; 4; 3]) [1; 4; 4; 3]).


(** A device memory of initial dimensions [0,4], never written, at address
    9, beside the written device memory of dimensions [2,4] at address 8. *)
Definition ex_device_memory_dynamic : @Memory ex_HalTypes ex_ValidatorBase :=
  @setValidator ex_HalTypes ex_ValidatorBase
    (@Memory_fromIBuffer ex_HalTypes ex_ValidatorBase 103 3)
    (@newDeviceMemoryValidator ex_HalTypes ex_ValidatorBase
       {[ (2000, INPUT, 0) ]} (ex_tensor [0; 4]) [0; 4]).

Definition ex_heap_devices : gmap ptr (@Memory ex_HalTypes ex_ValidatorBase) :=
  {[ 8 := ex_device_memory_written; 9 := ex_device_memory_dynamic ]}.

(** The device memory that was never written, at address 7, beside the
    device memory of initial dimensions [0,4] at address 9. *)
Definition ex_heap_unwritten_pair : gmap ptr (@Memory ex_HalTypes ex_ValidatorBase) :=
  {[ 7 := ex_device_memory; 9 := ex_device_memory_dynamic ]}.

(** Two shared-memory regions, of 16 and of 32 bytes. *)
Definition ex_heap_ashmem : gmap ptr (@Memory ex_HalTypes ex_ValidatorBase) :=
  {[ 7 := ex_ashmem_16;
     6 := @Memory_fromHidlMemory ex_HalTypes ex_ValidatorBase (mkHidlMemory true 32) ]}.

(** * Properties *)

(** ** The dimension combiner *)

Lemma combineAxes_same dims : combineAxes dims dims = Some dims.
Proof.
  induction dims as [|d dims IH]; [reflexivity|].
  cbn. rewrite IH, N.eqb_refl, orb_true_r. destruct (d =? 0); reflexivity.
Qed.

(** Combining a shape with itself yields it. *)
Lemma combineDimensions_same dims : combineDimensions dims dims = Some dims.
Proof. destruct dims as [|d dims]; [reflexivity | apply (combineAxes_same (d :: dims))]. Qed.

Lemma combineAxes_unknown dims :
  combineAxes (replicate (length dims) 0) dims = Some dims.
Proof.
  induction dims as [|d dims IH]; [reflexivity|].
  cbn. rewrite IH. reflexivity.
Qed.

(** Combining a shape of unknown axes with a shape of the same rank yields
    the latter. *)
Lemma combineDimensions_unknown dims :
  combineDimensions (replicate (length dims) 0) dims = Some dims.
Proof. destruct dims as [|d dims]; [reflexivity | apply (combineAxes_unknown (d :: dims))]. Qed.

(** Two shapes that differ on an axis known in both, and two non-empty
    shapes of different ranks, do not combine. *)
Example combineDimensions_axis_mismatch :
  combineDimensions [1; 4; 4; 3] [1; 5; 4; 3] = None.
Proof. reflexivity. Qed.

Example combineDimensions_rank_mismatch :
  combineDimensions [1; 4] [1; 4; 3] = None.
Proof. reflexivity. Qed.

Example combineDimensions_scenario :
  combineDimensions [1; 4; 4; 3] [0; 4; 4; 3] = Some [1; 4; 4; 3].
Proof. reflexivity. Qed.

(** ** Validators *)

Section Validators.
Context `{HalTypes} `{ValidatorBase} `{TypeManager}.

(** What [SizedMemoryValidator::validate] computes: the 32-bit sum is
    compared with the size. *)
Lemma SizedMemoryValidator_validate_spec base kSize c io i ty offset len :
  validate (SizedMemoryValidator base kSize) c io i ty offset len = true
  <-> add32 offset len <= kSize /\ ~ (offset = 0 /\ len = 0).
Proof.
  unfold validate.
  destruct (N.leb_spec (add32 offset len) kSize) as [Hle|Hgt]; cbn.
  - destruct (N.eqb_spec offset 0), (N.eqb_spec len 0); cbn; intuition congruence.
  - split; [discriminate | lia].
Qed.

(** When the sum of offset and length fits in 32 bits, the validator is
    the bound check of the window together with the rejection of the
    implied size. *)
Lemma SizedMemoryValidator_validate_no_overflow base kSize c io i ty offset len :
  offset + len < 2 ^ 32 ->
  (validate (SizedMemoryValidator base kSize) c io i ty offset len = true
   <-> offset + len <= kSize /\ ~ (offset = 0 /\ len = 0)).
Proof.
  intros Hfit. rewrite SizedMemoryValidator_validate_spec.
  unfold add32. rewrite N.mod_small by exact Hfit. reflexivity.
Qed.

(** C5, at a failing input.  A Sized validator of 16 bytes accepts offset
    4294967295 with length 2: the sum wraps around to 1 in 32 bits, while
    the window of the request ends far beyond the 16 bytes, so that
    validate succeeds although offset + length is not within the bound. *)
Theorem SizedMemoryValidator_validate_wraps_around base c io i ty :
  validate (SizedMemoryValidator base 16) c io i ty 4294967295 2 = true
  /\ ~ (4294967295 + 2 <= 16)
  /\ ~ (4294967295 = 0 /\ 2 = 0).
Proof.
  split; [reflexivity | split; lia].
Qed.

(** C8: the device validator accepts the dimensions of an input exactly
    when the memory is initialized and they are equal to the resolved
    dimensions; it fails on a memory that was never initialized, and it
    fails on any other dimensions, compatible or not. *)
Theorem DeviceMemoryValidator_validateInputDimensions_spec
    roles kOperand kInitialDimensions mUpdatedDimensions mInitialized dims :
  validateInputDimensions
    (DeviceMemoryValidator roles kOperand kInitialDimensions
                           mUpdatedDimensions mInitialized) dims = true
  <-> mInitialized = true /\ dims = mUpdatedDimensions.
Proof.
  cbn. destruct mInitialized; cbn.
  - case_bool_decide; cbn; intuition congruence.
  - intuition congruence.
Qed.

Lemma sameOperandSignature_false (a b : Operand) :
  sameOperandSignature a b = false
  <-> type a <> type b \/ SFeqb (scale a) (scale b) = false
      \/ zeroPoint a <> zeroPoint b
      \/ extraParams_eqb (extraParams a) (extraParams b) = false.
Proof.
  unfold sameOperandSignature.
  destruct (Z.eqb_spec (type a) (type b)), (Z.eqb_spec (zeroPoint a) (zeroPoint b)),
    (SFeqb (scale a) (scale b)), (extraParams_eqb (extraParams a) (extraParams b));
    cbn; intuition congruence.
Qed.

Lemma combineDimensions_nil_l dims : combineDimensions [] dims = Some dims.
Proof. destruct dims; reflexivity. Qed.

Lemma combineDimensions_nil_r dims : combineDimensions dims [] = Some dims.
Proof. destruct dims; reflexivity. Qed.

(** C9: [updateMetadata].
    (1) The device validator rejects metadata whose operand differs from
        its own in type, scale, zero point or extra parameters.
    (2) It combines the incoming dimensions with the recorded ones and
        rejects the metadata when they are incompatible.
    (3) A zero logical size is no constraint: a Sized validator accepts
        it, and the device validator then decides on the operand and the
        dimensions alone.
    (4) Empty dimensions are no constraint: the device validator then
        decides on the operand and on the size against the recorded
        dimensions, which it keeps.
    (5) The non-blob validator accepts everything, and metadata that
        constrains nothing (zero size, empty dimensions, no operand) is
        accepted by every validator. *)
Theorem updateMetadata_contract :
  (forall roles kOperand init upd b metadata o,
      md_operand metadata = Some o ->
      (type o <> type kOperand \/ SFeqb (scale o) (scale kOperand) = false
       \/ zeroPoint o <> zeroPoint kOperand
       \/ extraParams_eqb (extraParams o) (extraParams kOperand) = false) ->
      updateMetadata (DeviceMemoryValidator roles kOperand init upd b) metadata
      = (false, DeviceMemoryValidator roles kOperand init upd b))
  /\ (forall roles kOperand init upd b metadata,
      combineDimensions (md_dimensions metadata) init = None ->
      updateMetadata (DeviceMemoryValidator roles kOperand init upd b) metadata
      = (false, DeviceMemoryValidator roles kOperand init upd b))
  /\ (forall base kSize metadata,
      logicalSize metadata = 0 ->
      updateMetadata (SizedMemoryValidator base kSize) metadata
      = (true, SizedMemoryValidator base kSize))
  /\ (forall roles kOperand init upd b metadata,
      logicalSize metadata = 0 ->
      forall combined,
        (operandAccepted metadata kOperand
         /\ (md_dimensions metadata = [] \/ isTensorType (type kOperand) = true)
         /\ combineDimensions (md_dimensions metadata) init = Some combined)
        <-> updateMetadata (DeviceMemoryValidator roles kOperand init upd b) metadata
            = (true, DeviceMemoryValidator roles kOperand init combined b))
  /\ (forall roles kOperand init upd b metadata,
      md_dimensions metadata = [] ->
      (operandAccepted metadata kOperand
       /\ (logicalSize metadata = 0
           \/ logicalSize metadata = getSizeOfData (type kOperand) init))
      <-> updateMetadata (DeviceMemoryValidator roles kOperand init upd b) metadata
          = (true, DeviceMemoryValidator roles kOperand init init b))
  /\ (forall base metadata,
      updateMetadata (AHardwareBufferNonBlobValidator base) metadata
      = (true, AHardwareBufferNonBlobValidator base))
  /\ (forall v metadata,
      logicalSize metadata = 0 -> md_dimensions metadata = [] ->
      md_operand metadata = None ->
      fst (updateMetadata v metadata) = true).
Proof.
  repeat apply conj.
  - intros roles kOperand init upd b metadata o Ho Hdiff.
    apply sameOperandSignature_false in Hdiff.
    cbn. rewrite Ho, Hdiff. reflexivity.
  - intros roles kOperand init upd b metadata Hcomb.
    cbn. rewrite Hcomb. repeat case_match; reflexivity.
  - intros base kSize metadata Hsize. cbn. rewrite Hsize. reflexivity.
  - intros roles kOperand init upd b metadata Hsize combined.
    unfold operandAccepted. cbn. rewrite Hsize. cbn.
    destruct (md_operand metadata) as [o|]; cbn;
      [destruct (sameOperandSignature o kOperand); cbn|];
      try case_bool_decide; cbn;
      destruct (isTensorType (type kOperand)); cbn;
      destruct (combineDimensions (md_dimensions metadata) init); cbn;
      intuition congruence.
  - intros roles kOperand init upd b metadata Hdims.
    unfold operandAccepted. cbn. rewrite Hdims, combineDimensions_nil_l. cbn.
    destruct (md_operand metadata) as [o|]; cbn;
      [destruct (sameOperandSignature o kOperand); cbn|];
      destruct (N.eqb_spec (logicalSize metadata) 0);
      destruct (N.eqb_spec (logicalSize metadata) (getSizeOfData (type kOperand) init));
      cbn; intuition congruence.
  - reflexivity.
  - intros v metadata Hsize Hdims Hop.
    destruct v as [base kSize|base|roles kOperand init upd b]; cbn.
    + rewrite Hsize. reflexivity.
    + reflexivity.
    + rewrite Hop, Hdims, Hsize, combineDimensions_nil_l. reflexivity.
Qed.

End Validators.

(** ** Copying *)

Section Copy.
Context `{HalTypes} `{ValidatorBase} `{TypeManager} `{Platform} `{IBufferDriver}.

Lemma getValidator_Some (h : Heap) p v :
  getValidator h p = Some v -> exists m, h !! p = Some m /\ mValidator m = Some v.
Proof.
  unfold getValidator. destruct (h !! p) as [m|]; cbn; [eauto | discriminate].
Qed.

Lemma getValidator_storeValidator (h : Heap) p v w :
  getValidator h p = Some v -> getValidator (storeValidator h p w) p = Some w.
Proof.
  intros (m & Hm & _)%getValidator_Some.
  unfold storeValidator, getValidator. rewrite Hm, lookup_insert_eq. reflexivity.
Qed.

(** Once the source is known to be initialized, its metadata can be read:
    the [CHECK] of the device validator holds. *)
Lemma getMetadata_initialized v :
  isInitialized v = true -> is_Some (getMetadata v).
Proof.
  destruct v; cbn; intros Hinit; [eauto | eauto |].
  rewrite Hinit. eauto.
Qed.



Lemma setInitialized_device v b :
  isDeviceMemoryValidator v = true -> isInitialized (setInitialized b v) = b.
Proof. destruct v; cbn; [discriminate | discriminate | reflexivity]. Qed.

(** Where the base class keeps the flag that its [setInitialized] is given,
    every validator reports uninitialized after [setInitialized(false)]. *)
Lemma setInitialized_false v :
  (forall s, base_isInitialized (base_setInitialized false s) = false) ->
  isInitialized (setInitialized false v) = false.
Proof. intros Hbase. destruct v; cbn; auto. Qed.


(** [copy(a, a)] returns NO_ERROR and calls [setInitialized(true)] on the
    validator of [a]; nothing else of the heap changes. *)
Lemma copy_same_object (h : Heap) a v :
  getValidator h a = Some v ->
  copy h a a
  = Some (ANEURALNETWORKS_NO_ERROR, storeValidator h a (setInitialized true v)).
Proof.
  intros Hv. unfold copy, copyInternal.
  rewrite bool_decide_eq_true_2 by reflexivity. cbn.
  rewrite Hv. cbn. reflexivity.
Qed.

(** On a device memory, whatever its flag was: after [copy(a, a)] the
    validator reports initialized, and nothing else of it has changed. *)
Lemma copy_same_object_device (h : Heap) a roles kOperand init upd b :
  getValidator h a = Some (DeviceMemoryValidator roles kOperand init upd b) ->
  exists h',
    copy h a a = Some (ANEURALNETWORKS_NO_ERROR, h')
    /\ getValidator h' a = Some (DeviceMemoryValidator roles kOperand init upd true).
Proof.
  intros Hv. eexists. split; [apply copy_same_object; exact Hv|].
  erewrite getValidator_storeValidator by exact Hv. reflexivity.
Qed.

Lemma storeValidator_other (h : Heap) p q v :
  p <> q -> storeValidator h p v !! q = h !! q.
Proof.
  intros Hne. unfold storeValidator.
  destruct (h !! p); [apply lookup_insert_ne; exact Hne | reflexivity].
Qed.

(** What [copy(a, a)] does on every memory object [a]: it returns NO_ERROR
    and changes nothing but the validator of [a], on which it calls
    [setInitialized(true)].  The resolved dimensions of [a] are the same
    after the call as before it, and the validator of a memory allocated
    from a descriptor is unchanged when it was initialized before the
    call; when it was not, it reports initialized afterwards, although
    nothing has written the memory. *)
Theorem copy_same_object_sets_initialized (h : Heap) a v :
  getValidator h a = Some v ->
  exists h',
    copy h a a = Some (ANEURALNETWORKS_NO_ERROR, h')
    /\ getValidator h' a = Some (setInitialized true v)
    /\ (forall p, p <> a -> h' !! p = h !! p)
    /\ updatedDimensions (setInitialized true v) = updatedDimensions v
    /\ (isDeviceMemoryValidator v = true ->
        isInitialized (setInitialized true v) = true
        /\ (isInitialized v = true -> setInitialized true v = v)).
Proof.
  intros Hv. eexists. split; [apply copy_same_object; exact Hv|].
  split; [eapply getValidator_storeValidator; exact Hv|].
  split; [intros p Hp; apply storeValidator_other; congruence|].
  split; [destruct v; reflexivity|].
  intros Hdev. split; [apply setInitialized_device; exact Hdev|].
  destruct v; cbn in *; try discriminate. intros ->. reflexivity.
Qed.


End Copy.

(** ** The builder *)

Section Builder.
Context `{HalTypes} `{TypeManager}.

(** The three ways [addRole] ends: on a finished descriptor with
    BAD_STATE, on a failed check with BAD_DATA, both leaving the builder
    as it was; or with NO_ERROR, the role recorded. *)
Lemma addRole_inv b p c io i f n b' :
  addRole b p c io i f = (n, b') ->
  (mFinished b = true /\ n = ANEURALNETWORKS_BAD_STATE /\ b' = b)
  \/ (mFinished b = false /\ n = ANEURALNETWORKS_BAD_DATA /\ b' = b)
  \/ (n = ANEURALNETWORKS_NO_ERROR
      /\ mFinished b = false
      /\ ((p, io, i) ∉ mRoles b)
      /\ SFltb float_1_0 f = false /\ SFleb f float_0_0 = false
      /\ mRoles b' = {[ (p, io, i) ]} ∪ mRoles b
      /\ is_Some (mOperand b')
      /\ mFinished b' = false
      /\ mAllocator b' = mAllocator b
      /\ (preparedModels (mDesc b') <> [] -> mRoles b' <> ∅)).
Proof.
  unfold addRole, badState. intros Hcall.
  destruct (mFinished b) eqn:Hfin; [injection Hcall as <- <-; auto|].
  right.
  case_bool_decide as Hdup; [injection Hcall as <- <-; auto|].
  destruct (match io with
            | INPUT => forEachStepRoleOfInput c i
            | OUTPUT => forEachStepRoleOfOutput c i
            end) as [r roles].
  destruct (negb (bool_decide (r = ANEURALNETWORKS_NO_ERROR)));
    [injection Hcall as <- <-; auto|].
  destruct (match io with
            | INPUT => if inputCount (getModel c) <=? i then None
                       else getInputOperand (getModel c) i
            | OUTPUT => if outputCount (getModel c) <=? i then None
                        else getOutputOperand (getModel c) i
            end) as [operand|]; [|injection Hcall as <- <-; auto].
  destruct (match mOperand b with
            | Some o => differentOperandSignature operand o
            | None => false
            end); [injection Hcall as <- <-; auto|].
  destruct (negb (isTensorType (type operand))
            && negb (bool_decide (dimensions (mDesc b) = [])));
    [injection Hcall as <- <-; auto|].
  destruct (combineDimensions (dimensions (mDesc b)) (operand_dimensions operand))
    as [combined|]; [|injection Hcall as <- <-; auto].
  destruct (SFltb float_1_0 f || SFleb f float_0_0) eqn:Hfreq;
    [injection Hcall as <- <-; auto|].
  apply orb_false_elim in Hfreq as [Hgt Hle].
  injection Hcall as <- <-. right. cbn.
  repeat split; eauto.
  intros _. set_solver.
Qed.

(** C10: a call of [addRole] that returns anything but NO_ERROR leaves
    the builder as it was: the role set, the operand, the accumulated
    dimensions, the role lists and prepared models of the descriptor, and
    the rest of its state. *)
Theorem addRole_failure_atomic b p c io i f :
  fst (addRole b p c io i f) <> ANEURALNETWORKS_NO_ERROR ->
  snd (addRole b p c io i f) = b.
Proof.
  destruct (addRole b p c io i f) as [n b'] eqn:Hcall. cbn.
  apply addRole_inv in Hcall as [(_ & _ & ->)|[(_ & _ & ->)|(-> & _)]];
    [reflexivity | reflexivity | congruence].
Qed.

(** A frequency that is above 1.0 or not above 0.0 is rejected with
    BAD_DATA, on a descriptor that is not finished. *)
Lemma addRole_frequency_out_of_range b p c io i f :
  mFinished b = false ->
  SFltb float_1_0 f = true \/ SFleb f float_0_0 = true ->
  addRole b p c io i f = (ANEURALNETWORKS_BAD_DATA, b).
Proof.
  intros Hfin Hout.
  destruct (addRole b p c io i f) as [n b'] eqn:Hcall.
  apply addRole_inv in Hcall
    as [(? & _)|[(_ & -> & ->)|(_ & _ & _ & Hgt & Hle & _)]];
    [congruence | reflexivity | destruct Hout; congruence].
Qed.

(** The frequency is the last thing [addRole] checks, and the only place
    where it looks at it: where a call succeeds with one frequency, it
    succeeds with any frequency [f] with [f > 1.0f] and [f <= 0.0f] both
    false. *)
Lemma addRole_frequency_accepted b p c io i f0 f :
  fst (addRole b p c io i f0) = ANEURALNETWORKS_NO_ERROR ->
  SFltb float_1_0 f = false -> SFleb f float_0_0 = false ->
  fst (addRole b p c io i f) = ANEURALNETWORKS_NO_ERROR.
Proof.
  unfold addRole. intros Hok Hgt Hle. rewrite Hgt, Hle. cbn [orb].
  repeat match goal with
         | |- context [match ?x with _ => _ end] =>
             destruct x eqn:?; cbv beta iota zeta in *
         end;
    solve [reflexivity | exact Hok | discriminate Hok].
Qed.

Lemma setDimensions_inv b dims n b' :
  setDimensions b dims = (n, b') ->
  (n <> ANEURALNETWORKS_NO_ERROR /\ b' = b)
  \/ (n = ANEURALNETWORKS_NO_ERROR
      /\ mFinished b = false
      /\ mRoles b' = mRoles b /\ mOperand b' = mOperand b
      /\ mFinished b' = false /\ mAllocator b' = mAllocator b
      /\ preparedModels (mDesc b') = preparedModels (mDesc b)).
Proof.
  unfold setDimensions, badState. intros Hcall.
  destruct (mFinished b) eqn:Hfin;
    [injection Hcall as <- <-; left; split; [discriminate | reflexivity]|].
  destruct (match mOperand b with
            | Some o => negb (isTensorType (type o)) && negb (bool_decide (dims = []))
            | None => false
            end);
    [injection Hcall as <- <-; left; split; [discriminate | reflexivity]|].
  destruct (combineDimensions (dimensions (mDesc b)) dims) as [combined|];
    injection Hcall as <- <-; [right | left; split; [discriminate | reflexivity]].
  cbn. auto 10.
Qed.

(** The calls before [finish] never finish a descriptor and never remove
    a role. *)
Lemma runCall_mFinished b c : mFinished (runCall b c) = mFinished b.
Proof.
  destruct c as [p compilation io i f|dims]; cbn.
  - destruct (addRole b p compilation io i f) as [n b'] eqn:Hcall. cbn.
    apply addRole_inv in Hcall
      as [(_ & _ & ->)|[(_ & _ & ->)|(_ & Hfin & _ & _ & _ & _ & _ & Hfin' & _)]];
      congruence.
  - destruct (setDimensions b dims) as [n b'] eqn:Hcall. cbn.
    apply setDimensions_inv in Hcall as [(_ & ->)|(_ & Hfin & _ & _ & Hfin' & _)];
      congruence.
Qed.

Lemma runCall_mRoles b c : mRoles b ⊆ mRoles (runCall b c).
Proof.
  destruct c as [p compilation io i f|dims]; cbn.
  - destruct (addRole b p compilation io i f) as [n b'] eqn:Hcall. cbn.
    apply addRole_inv in Hcall
      as [(_ & _ & ->)|[(_ & _ & ->)|(_ & _ & _ & _ & _ & Hroles & _)]];
      [reflexivity | reflexivity | rewrite Hroles; apply union_subseteq_r].
  - destruct (setDimensions b dims) as [n b'] eqn:Hcall. cbn.
    apply setDimensions_inv in Hcall as [(_ & ->)|(_ & _ & Hroles & _)];
      [reflexivity | rewrite Hroles; reflexivity].
Qed.

Lemma runCalls_mFinished cs : forall b, mFinished (runCalls b cs) = mFinished b.
Proof.
  induction cs as [|c cs IH]; intros b; cbn; [reflexivity|].
  unfold runCalls in IH. rewrite IH. apply runCall_mFinished.
Qed.

Lemma runCalls_mRoles cs : forall b, mRoles b ⊆ mRoles (runCalls b cs).
Proof.
  induction cs as [|c cs IH]; intros b; cbn; [reflexivity|].
  unfold runCalls in IH. etransitivity; [apply runCall_mRoles | apply IH].
Qed.

(** A role that is in the role set is rejected with BAD_DATA, the builder
    unchanged, as long as the descriptor is not finished. *)
Lemma addRole_registered b p c io i f :
  mFinished b = false -> (p, io, i) ∈ mRoles b ->
  addRole b p c io i f = (ANEURALNETWORKS_BAD_DATA, b).
Proof.
  intros Hfin Hin. unfold addRole, badState. rewrite Hfin.
  rewrite bool_decide_eq_true_2 by exact Hin. reflexivity.
Qed.

(** C6: once a role (compilation, ioType, index) has been registered on a
    descriptor, registering it again, whatever the frequency and whatever
    roles and dimensions were added in between, returns BAD_DATA and
    leaves the builder, and so the accumulated dimensions of the
    descriptor, unchanged. *)
Theorem addRole_twice_rejected b p c io i f between c' f' :
  fst (addRole b p c io i f) = ANEURALNETWORKS_NO_ERROR ->
  let b2 := runCalls (snd (addRole b p c io i f)) between in
  fst (addRole b2 p c' io i f') = ANEURALNETWORKS_BAD_DATA
  /\ snd (addRole b2 p c' io i f') = b2
  /\ dimensions (mDesc (snd (addRole b2 p c' io i f'))) = dimensions (mDesc b2).
Proof.
  intros Hfirst b2.
  destruct (addRole b p c io i f) as [n b1] eqn:Hcall. cbn in Hfirst, b2. subst n.
  apply addRole_inv in Hcall
    as [(_ & ? & _)|[(_ & ? & _)|(_ & _ & _ & _ & _ & Hroles & _ & Hfin & _)]];
    [discriminate | discriminate |].
  assert (Hcall2 : addRole b2 p c' io i f' = (ANEURALNETWORKS_BAD_DATA, b2)).
  { apply addRole_registered.
    - unfold b2. rewrite runCalls_mFinished. exact Hfin.
    - apply (runCalls_mRoles between b1). rewrite Hroles.
      apply elem_of_union_l, elem_of_singleton. reflexivity. }
  rewrite Hcall2. auto.
Qed.

End Builder.

(** ** Finishing and allocating *)

Section Allocation.
Context `{HalTypes} `{ValidatorBase} `{TypeManager} `{Platform} `{!DeviceDriver}.

Lemma finish_inv b n b' :
  finish b = Some (n, b') ->
  (n <> ANEURALNETWORKS_NO_ERROR /\ b' = b)
  \/ (n = ANEURALNETWORKS_NO_ERROR
      /\ mFinished b = false /\ mRoles b <> ∅ /\ is_Some (mOperand b)
      /\ selectDeviceMemoryAllocator (mDesc b) = Some (mAllocator b')
      /\ mDesc b' = mDesc b /\ mRoles b' = mRoles b /\ mOperand b' = mOperand b
      /\ mFinished b' = true).
Proof.
  unfold finish, badState. intros Hcall.
  destruct (mFinished b) eqn:Hfin;
    [injection Hcall as <- <-; left; split; [discriminate | reflexivity]|].
  case_bool_decide as Hroles;
    [injection Hcall as <- <-; left; split; [discriminate | reflexivity]|].
  destruct (mOperand b) as [operand|] eqn:Hop; [|discriminate].
  cbn in Hcall.
  destruct (selectDeviceMemoryAllocator (mDesc b)) as [allocator|]; [|discriminate].
  injection Hcall as <- <-. right. cbn. repeat split; eauto.
Qed.

Lemma reachable_invariant b : reachable b -> builderInvariant b.
Proof.
  induction 1 as [|b c _ IH|b n b' _ IH Hfinish].
  - unfold builderInvariant. cbn. repeat split; congruence.
  - destruct IH as (I1 & I2 & I3 & I4).
    destruct c as [p compilation io i f|dims]; cbn.
    + destruct (addRole b p compilation io i f) as [n b'] eqn:Hcall. cbn.
      apply addRole_inv in Hcall
        as [(_ & _ & ->)|[(_ & _ & ->)
                         |(_ & Hfin & _ & _ & _ & Hroles & Hop & Hfin' & Halloc & Hpm)]];
        [repeat split; assumption | repeat split; assumption |].
      split; [exact Hpm|]. split; [intros _; exact Hop|].
      split; [intros _; exact Hop|].
      intros _. rewrite Halloc. auto.
    + destruct (setDimensions b dims) as [n b'] eqn:Hcall. cbn.
      apply setDimensions_inv in Hcall
        as [(_ & ->)|(_ & Hfin & Hroles & Hop & Hfin' & Halloc & Hpm)];
        [repeat split; assumption|].
      unfold builderInvariant. rewrite Hroles, Hop, Hpm, Halloc.
      repeat split; auto; congruence.
  - destruct IH as (I1 & I2 & I3 & I4).
    apply finish_inv in Hfinish
      as [(_ & ->)|(_ & Hfin & Hroles & Hop & _ & Hdesc & Hroles' & Hop' & Hfin')];
      [repeat split; assumption|].
    unfold builderInvariant. rewrite Hdesc, Hroles', Hop'.
    repeat split; auto; congruence.
Qed.

Lemma reachable_runCalls cs : forall b, reachable b -> reachable (runCalls b cs).
Proof.
  induction cs as [|c cs IH]; intros b Hb; [exact Hb|].
  cbn. apply IH, reachable_call, Hb.
Qed.

(** The loop of [selectDeviceMemoryAllocator] leaves with nullptr as soon
    as a prepared model has another device than the allocator. *)
Lemma selectDeviceLoop_other_device models : forall allocator,
  allocator <> nullptr ->
  (exists pm, pm ∈ models /\ PreparedModel_getDevice pm <> allocator) ->
  selectDeviceLoop allocator models = inl nullptr.
Proof.
  induction models as [|pm0 rest IH]; intros allocator Hnn (pm & Hin & Hdev).
  - inversion Hin.
  - cbn. destruct (N.eqb_spec allocator nullptr) as [|_]; [contradiction|].
    destruct (N.eqb_spec allocator (PreparedModel_getDevice pm0)) as [Heq|Hneq];
      cbn; [|reflexivity].
    apply IH; [exact Hnn|].
    apply elem_of_cons in Hin as [->|Hin]; [congruence | eauto].
Qed.

Lemma selectDeviceMemoryAllocator_two_devices desc :
  spansTwoDevices desc -> selectDeviceMemoryAllocator desc = Some nullptr.
Proof.
  intros (Hnn & pm1 & pm2 & Hin1 & Hin2 & Hne).
  unfold selectDeviceMemoryAllocator.
  destruct (preparedModels desc) as [|pm0 rest] eqn:Hmodels; [inversion Hin1|].
  cbn. rewrite selectDeviceLoop_other_device; [reflexivity | | ].
  - apply Hnn. left.
  - destruct (decide (PreparedModel_getDevice pm1 = PreparedModel_getDevice pm0))
      as [Heq1|Hne1].
    + exists pm2. split; [|congruence].
      apply elem_of_cons in Hin2 as [->|Hin2]; [congruence | exact Hin2].
    + exists pm1. split; [|exact Hne1].
      apply elem_of_cons in Hin1 as [->|Hin1]; [congruence | exact Hin1].
Qed.

(** After [finish], the calls that modify a descriptor fail and change
    nothing. *)
Lemma finished_frozen b cs : mFinished b = true -> runCalls b cs = b.
Proof.
  intros Hfin. induction cs as [|c cs IH]; [reflexivity|].
  cbn. replace (runCall b c) with b; [exact IH|].
  destruct c as [p compilation io i f|dims]; cbn.
  - unfold addRole, badState. rewrite Hfin. reflexivity.
  - unfold setDimensions, badState. rewrite Hfin. reflexivity.
Qed.

Lemma MemoryAshmem_create_cases size :
  (exists m, MemoryAshmem_create size = (ANEURALNETWORKS_NO_ERROR, Some m))
  \/ MemoryAshmem_create size = (ANEURALNETWORKS_OUT_OF_MEMORY, None).
Proof.
  unfold MemoryAshmem_create. destruct (mapMemory (allocateSharedMemory size)); cbn; eauto.
Qed.

(** [allocate] with no device allocator: past the two checks, it makes
    one call, to [MemoryAshmem::create]. *)
Lemma allocate_without_allocator b operand :
  mFinished b = true -> mOperand b = Some operand -> mAllocator b = nullptr ->
  getSizeOfData (type operand) (dimensions (mDesc b)) <> 0 ->
  exists n memory,
    allocate b
    = Some (n, memory,
            [CallMemoryAshmemCreate (getSizeOfData (type operand) (dimensions (mDesc b)))])
    /\ n = fst (MemoryAshmem_create (getSizeOfData (type operand) (dimensions (mDesc b)))).
Proof.
  intros Hfin Hop Halloc Hsize. unfold allocate.
  rewrite Hfin, Hop, Halloc. cbn.
  destruct (N.eqb_spec (getSizeOfData (type operand) (dimensions (mDesc b))) 0)
    as [|_]; [contradiction|].
  destruct (MemoryAshmem_create_cases
              (getSizeOfData (type operand) (dimensions (mDesc b))))
    as [(m & ->)| ->]; cbn; eauto.
Qed.

(** [allocate] with a device allocator that fails: one call to the device,
    then one call to [MemoryAshmem::create]. *)
Lemma allocate_device_failure b operand :
  mFinished b = true -> mOperand b = Some operand -> mAllocator b <> nullptr ->
  getSizeOfData (type operand) (dimensions (mDesc b)) <> 0 ->
  fst (Device_allocate (mAllocator b) (mDesc b)) <> ANEURALNETWORKS_NO_ERROR ->
  exists n memory,
    allocate b
    = Some (n, memory,
            [CallDeviceAllocate (mAllocator b);
             CallMemoryAshmemCreate (getSizeOfData (type operand) (dimensions (mDesc b)))])
    /\ n = fst (MemoryAshmem_create (getSizeOfData (type operand) (dimensions (mDesc b)))).
Proof.
  intros Hfin Hop Halloc Hsize Hdev. unfold allocate.
  rewrite Hfin, Hop. cbn.
  destruct (N.eqb_spec (getSizeOfData (type operand) (dimensions (mDesc b))) 0)
    as [|_]; [contradiction|].
  destruct (N.eqb_spec (mAllocator b) nullptr) as [|_]; [contradiction|]. cbn.
  destruct (Device_allocate (mAllocator b) (mDesc b)) as [n0 memory0]. cbn in Hdev.
  rewrite bool_decide_eq_false_2 by exact Hdev. cbn.
  destruct (MemoryAshmem_create_cases
              (getSizeOfData (type operand) (dimensions (mDesc b))))
    as [(m & ->)| ->]; cbn; eauto.
Qed.

(** [allocate] with a device allocator that succeeds: one call to the
    device and none to [MemoryAshmem::create]. *)
Lemma allocate_device_success b operand m :
  mFinished b = true -> mOperand b = Some operand -> mAllocator b <> nullptr ->
  getSizeOfData (type operand) (dimensions (mDesc b)) <> 0 ->
  Device_allocate (mAllocator b) (mDesc b) = (ANEURALNETWORKS_NO_ERROR, Some m) ->
  allocate b
  = Some (ANEURALNETWORKS_NO_ERROR,
          Some (setValidator m (newDeviceMemoryValidator (mRoles b) operand
                                                         (dimensions (mDesc b)))),
          [CallDeviceAllocate (mAllocator b)]).
Proof.
  intros Hfin Hop Halloc Hsize Hdev. unfold allocate.
  rewrite Hfin, Hop. cbn.
  destruct (N.eqb_spec (getSizeOfData (type operand) (dimensions (mDesc b))) 0)
    as [|_]; [contradiction|].
  destruct (N.eqb_spec (mAllocator b) nullptr) as [|_]; [contradiction|]. cbn.
  rewrite Hdev. reflexivity.
Qed.

(** C4: [allocate] returns BAD_STATE and no object on a descriptor that is
    not finished; on a finished one it returns OP_FAILED and no object
    when the size computed from the operand type and the accumulated
    dimensions is zero; otherwise, when no device allocator was selected
    or when the device allocation fails, it calls [MemoryAshmem::create]
    once, as its last call, and returns what that call returns. *)
Theorem allocate_error_handling b :
  reachable b ->
  (mFinished b = false -> allocate b = Some (ANEURALNETWORKS_BAD_STATE, None, []))
  /\ (mFinished b = true ->
      exists operand,
        mOperand b = Some operand
        /\ (getSizeOfData (type operand) (dimensions (mDesc b)) = 0 ->
            allocate b = Some (ANEURALNETWORKS_OP_FAILED, None, []))
        /\ (getSizeOfData (type operand) (dimensions (mDesc b)) <> 0 ->
            (mAllocator b = nullptr ->
             exists n memory,
               allocate b
               = Some (n, memory,
                       [CallMemoryAshmemCreate
                          (getSizeOfData (type operand) (dimensions (mDesc b)))])
               /\ n = fst (MemoryAshmem_create
                             (getSizeOfData (type operand) (dimensions (mDesc b)))))
            /\ (mAllocator b <> nullptr ->
                fst (Device_allocate (mAllocator b) (mDesc b))
                <> ANEURALNETWORKS_NO_ERROR ->
                exists n memory,
                  allocate b
                  = Some (n, memory,
                          [CallDeviceAllocate (mAllocator b);
                           CallMemoryAshmemCreate
                             (getSizeOfData (type operand) (dimensions (mDesc b)))])
                  /\ n = fst (MemoryAshmem_create
                                (getSizeOfData (type operand)
                                               (dimensions (mDesc b))))))).
Proof.
  intros Hreach. split.
  - intros Hfin. unfold allocate. rewrite Hfin. reflexivity.
  - intros Hfin.
    destruct (reachable_invariant b Hreach) as (_ & _ & I3 & _).
    destruct (I3 Hfin) as [operand Hop].
    exists operand. split; [exact Hop|]. split.
    + intros Hsize. unfold allocate. rewrite Hfin, Hop. cbn.
      rewrite Hsize. reflexivity.
    + intros Hsize. split.
      * intros Halloc. apply allocate_without_allocator; assumption.
      * intros Halloc Hdev. apply allocate_device_failure; assumption.
Qed.

(** C3, as the code has it: on a descriptor that is not finished and
    whose roles span two devices, [finish] returns NO_ERROR with no device
    allocator selected; from then on the descriptor cannot change, and
    [allocate] never calls a device allocator: when the computed size is
    not zero its only call is the one to [MemoryAshmem::create], and when
    it is zero it returns OP_FAILED without any call. *)
Theorem finish_two_devices_falls_back b :
  reachable b -> mFinished b = false -> spansTwoDevices (mDesc b) ->
  exists b' operand,
    finish b = Some (ANEURALNETWORKS_NO_ERROR, b')
    /\ mAllocator b' = nullptr
    /\ mFinished b' = true
    /\ (forall cs, runCalls b' cs = b')
    /\ mOperand b' = Some operand
    /\ exists n memory calls,
        allocate b' = Some (n, memory, calls)
        /\ (forall device, CallDeviceAllocate device ∉ calls)
        /\ (getSizeOfData (type operand) (dimensions (mDesc b')) <> 0 ->
            calls = [CallMemoryAshmemCreate
                       (getSizeOfData (type operand) (dimensions (mDesc b')))])
        /\ (getSizeOfData (type operand) (dimensions (mDesc b')) = 0 ->
            calls = [] /\ n = ANEURALNETWORKS_OP_FAILED /\ memory = None).
Proof.
  intros Hreach Hfin Hspan.
  destruct (reachable_invariant b Hreach) as (I1 & I2 & _ & _).
  assert (Hmodels : preparedModels (mDesc b) <> []).
  { destruct Hspan as (_ & pm1 & _ & Hin & _).
    intros Hnil. rewrite Hnil in Hin. inversion Hin. }
  destruct (I2 (I1 Hmodels)) as [operand Hop].
  set (b' := mkMemoryBuilder _ (mDesc b) (mRoles b) (mOperand b) true nullptr).
  assert (Hfinish : finish b = Some (ANEURALNETWORKS_NO_ERROR, b')).
  { unfold finish, badState. rewrite Hfin.
    rewrite bool_decide_eq_false_2 by exact (I1 Hmodels).
    rewrite Hop. cbn.
    rewrite (selectDeviceMemoryAllocator_two_devices _ Hspan). cbn.
    unfold b'. rewrite Hop. reflexivity. }
  exists b', operand.
  split; [exact Hfinish|]. split; [reflexivity|]. split; [reflexivity|].
  split; [intros cs; apply finished_frozen; reflexivity|].
  split; [exact Hop|].
  destruct (N.eq_dec (getSizeOfData (type operand) (dimensions (mDesc b'))) 0)
    as [Hzero|Hsize].
  - exists ANEURALNETWORKS_OP_FAILED, None, [].
    split.
    { unfold allocate. cbn. rewrite Hop. cbn. cbn in Hzero. rewrite Hzero.
      reflexivity. }
    split; [intros device Hin; inversion Hin|].
    split; [contradiction | auto].
  - destruct (allocate_without_allocator b' operand) as (n & memory & Halloc & _);
      [reflexivity | exact Hop | reflexivity | exact Hsize |].
    eexists n, memory, _. split; [exact Halloc|].
    split; [|split; [reflexivity | contradiction]].
    intros device Hin.
    apply elem_of_cons in Hin as [Heq|Hin]; [discriminate | inversion Hin].
Qed.

End Allocation.

(** ** The concrete runtime *)

Section Concrete.
#[local] Existing Instances ex_HalTypes ex_TypeManager ex_ValidatorBase
  ex_Platform ex_IBufferDriver ex_DeviceDriver.

(** C1, at a failing input.  The device memory at address 7 has its
    validator as [allocate] installed it: nothing has written it and it
    reports uninitialized, so that [copy] from it to the device memory at
    address 9 is refused with BAD_DATA.  [copy] of the memory to itself
    returns NO_ERROR before the source is looked at and keeps the resolved
    dimensions, but the validator reports initialized afterwards: its
    state is not what it was before the call.  [copy] from it to address 9
    is then accepted, and marks that memory initialized too. *)
Theorem copy_same_object_marks_initialized :
  isInitialized <$> getValidator ex_heap_unwritten_pair 7 = Some false
  /\ (exists h0, copy ex_heap_unwritten_pair 7 9 = Some (ANEURALNETWORKS_BAD_DATA, h0))
  /\ exists h',
      copy ex_heap_unwritten_pair 7 7 = Some (ANEURALNETWORKS_NO_ERROR, h')
      /\ isInitialized <$> getValidator h' 7 = Some true
      /\ updatedDimensions <$> getValidator h' 7
         = updatedDimensions <$> getValidator ex_heap_unwritten_pair 7
      /\ exists h'',
          copy h' 7 9 = Some (ANEURALNETWORKS_NO_ERROR, h'')
          /\ isInitialized <$> getValidator h'' 9 = Some true.
Proof.
  split; [vm_compute; reflexivity|].
  split; [eexists; vm_compute; reflexivity|].
  eexists. split; [apply copy_same_object; vm_compute; reflexivity|].
  split; [vm_compute; reflexivity|]. split; [vm_compute; reflexivity|].
  eexists. split; vm_compute; reflexivity.
Qed.


Lemma copy_same_object_sets_initialized_witness :
  exists h',
    copy ex_heap_unwritten 7 7 = Some (ANEURALNETWORKS_NO_ERROR, h')
    /\ isInitialized <$> getValidator h' 7 = Some true.
Proof.
  destruct (copy_same_object_sets_initialized ex_heap_unwritten 7
              (newDeviceMemoryValidator {[ (1000, OUTPUT, 0) ]} (ex_tensor [2; 4]) [2; 4])
              eq_refl)
    as (h' & Hcopy & Hv & _).
  exists h'. split; [exact Hcopy|]. rewrite Hv. reflexivity.
Defined.


(** The copy of the 16-byte region into the 32-byte device memory fails
    with BAD_DATA and leaves the device memory, which was initialized,
    uninitialized. *)
Example copy_size_mismatch :
  exists h',
    copy ex_heap 7 8 = Some (ANEURALNETWORKS_BAD_DATA, h')
    /\ isInitialized <$> getValidator ex_heap 8 = Some true
    /\ isInitialized <$> getValidator h' 8 = Some false.
Proof. eexists. repeat split; vm_compute; reflexivity. Qed.

Lemma updateMetadata_contract_witness :
  updateMetadata (DeviceMemoryValidator {[ (1000, OUTPUT, 0) ]} (ex_tensor [2; 4])
                                        [2; 4] [2; 4] true)
                 ex_metadata_int32
  = (false, DeviceMemoryValidator {[ (1000, OUTPUT, 0) ]} (ex_tensor [2; 4])
                                  [2; 4] [2; 4] true).
Proof.
  apply (proj1 updateMetadata_contract) with (o := @mkOperand ex_HalTypes 4%Z [2; 4] float_0_0 0%Z tt).
  - reflexivity.
  - left. discriminate.
Defined.

(** C7, at a failing input.  NaN is not in the interval (0.0, 1.0]: it is
    neither above 0.0 nor at most 1.0.  Both comparisons of the frequency
    check are false on it, and [addRole] on a new descriptor, all other
    preconditions holding, returns NO_ERROR and records the role with
    that frequency. *)
Theorem addRole_accepts_NaN_frequency :
  ~ (SFltb float_0_0 float_NaN = true /\ SFleb float_NaN float_1_0 = true)
  /\ fst (addRole MemoryBuilder_new 1000 ex_compilation INPUT 0 float_NaN)
     = ANEURALNETWORKS_NO_ERROR
  /\ inputRoles (mDesc (snd (addRole MemoryBuilder_new 1000 ex_compilation
                                     INPUT 0 float_NaN)))
     = [mkBufferRole 0 0 float_NaN].
Proof.
  split; [intros [Hgt _]; discriminate Hgt|].
  split; vm_compute; reflexivity.
Qed.

(** The frequencies of the specification: 0.0 and 1.5 are rejected with
    BAD_DATA, 1.0 is accepted. *)
Example addRole_frequency_0_0 :
  addRole MemoryBuilder_new 1000 ex_compilation INPUT 0 float_0_0
  = (ANEURALNETWORKS_BAD_DATA, MemoryBuilder_new).
Proof. apply addRole_frequency_out_of_range; [reflexivity | right; reflexivity]. Qed.

Example addRole_frequency_1_5 :
  addRole MemoryBuilder_new 1000 ex_compilation INPUT 0 float_1_5
  = (ANEURALNETWORKS_BAD_DATA, MemoryBuilder_new).
Proof. apply addRole_frequency_out_of_range; [reflexivity | left; reflexivity]. Qed.

Example addRole_frequency_1_0 :
  fst (addRole MemoryBuilder_new 1000 ex_compilation INPUT 0 float_1_0)
  = ANEURALNETWORKS_NO_ERROR.
Proof. vm_compute. reflexivity. Qed.

Lemma addRole_failure_atomic_witness :
  snd (addRole MemoryBuilder_new 1000 ex_compilation INPUT 0 float_1_5)
  = MemoryBuilder_new.
Proof.
  apply addRole_failure_atomic. vm_compute. discriminate.
Defined.

Lemma addRole_twice_rejected_witness :
  fst (addRole (runCalls (snd (addRole MemoryBuilder_new 1000 ex_compilation
                                       INPUT 0 float_1_0))
                         [DoSetDimensions [1; 4; 4; 3]])
               1000 ex_compilation INPUT 0 float_1_0)
  = ANEURALNETWORKS_BAD_DATA.
Proof.
  assert (Hfirst : fst (addRole MemoryBuilder_new 1000 ex_compilation INPUT 0 float_1_0)
                   = ANEURALNETWORKS_NO_ERROR) by (vm_compute; reflexivity).
  exact (proj1 (addRole_twice_rejected MemoryBuilder_new 1000 ex_compilation INPUT 0
                  float_1_0 [DoSetDimensions [1; 4; 4; 3]] ex_compilation
                  float_1_0 Hfirst)).
Defined.

Lemma ex_builder_two_devices_reachable : reachable ex_builder_two_devices.
Proof. apply reachable_runCalls, reachable_new. Qed.

Lemma ex_builder_two_devices_spans :
  spansTwoDevices (mDesc ex_builder_two_devices).
Proof.
  unfold spansTwoDevices.
  change (preparedModels (mDesc ex_builder_two_devices)) with [16; 32].
  split.
  - intros pm Hin.
    apply elem_of_cons in Hin as [->|Hin]; [discriminate|].
    apply elem_of_cons in Hin as [->|Hin]; [discriminate | inversion Hin].
  - exists 16, 32. repeat split; [left | right; left | discriminate].
Qed.

Lemma ex_builder_two_devices_sized_spans :
  spansTwoDevices (mDesc ex_builder_two_devices_sized).
Proof. exact ex_builder_two_devices_spans. Qed.

(** C3, at a failing input.  The descriptor has an output role on device 1
    and an input role on device 2, and its dimensions [0,4] have an
    unknown axis.  [finish] returns NO_ERROR, and [allocate] then returns
    OP_FAILED on the size check: it makes no call at all, so it does not
    take the shared-memory fallback. *)
Lemma allocate_two_devices_unknown_size_no_fallback :
  reachable ex_builder_two_devices
  /\ mFinished ex_builder_two_devices = false
  /\ spansTwoDevices (mDesc ex_builder_two_devices)
  /\ exists b',
      finish ex_builder_two_devices = Some (ANEURALNETWORKS_NO_ERROR, b')
      /\ allocate b' = Some (ANEURALNETWORKS_OP_FAILED, None, [])
      /\ ~ (exists n memory calls size,
              allocate b' = Some (n, memory, calls)
              /\ CallMemoryAshmemCreate size ∈ calls).
Proof.
  split; [exact ex_builder_two_devices_reachable|].
  split; [reflexivity|].
  split; [exact ex_builder_two_devices_spans|].
  set (b' := mkMemoryBuilder _ (mDesc ex_builder_two_devices)
               (mRoles ex_builder_two_devices)
               (mOperand ex_builder_two_devices) true nullptr).
  exists b'. split; [vm_compute; reflexivity|].
  assert (Halloc : allocate b' = Some (ANEURALNETWORKS_OP_FAILED, None, []))
    by (vm_compute; reflexivity).
  split; [exact Halloc|].
  intros (n & memory & calls & size & Hcall & Hin).
  rewrite Halloc in Hcall. injection Hcall as <- <- <-. inversion Hin.
Qed.

Lemma finish_two_devices_falls_back_witness :
  exists b',
    finish ex_builder_two_devices_sized = Some (ANEURALNETWORKS_NO_ERROR, b')
    /\ mAllocator b' = nullptr
    /\ exists n memory calls,
        allocate b' = Some (n, memory, calls)
        /\ forall device, CallDeviceAllocate device ∉ calls.
Proof.
  destruct (finish_two_devices_falls_back ex_builder_two_devices_sized
              (reachable_call _ _ ex_builder_two_devices_reachable)
              eq_refl ex_builder_two_devices_sized_spans)
    as (b' & operand & Hfinish & Hnull & _ & _ & _ & n & memory & calls & Halloc
        & Hdev & _).
  exists b'. split; [exact Hfinish|]. split; [exact Hnull|].
  exists n, memory, calls. split; [exact Halloc | exact Hdev].
Defined.

(** With the dimensions set to [2,4], the same descriptor is allocated by
    the fallback alone: 32 bytes of shared memory, the device validator
    installed and uninitialized. *)
Example allocate_two_devices_sized :
  exists b' memory v,
    finish ex_builder_two_devices_sized = Some (ANEURALNETWORKS_NO_ERROR, b')
    /\ allocate b' = Some (ANEURALNETWORKS_NO_ERROR, Some memory,
                           [CallMemoryAshmemCreate 32])
    /\ mValidator memory = Some v
    /\ isInitialized v = false
    /\ updatedDimensions v = Some [2; 4].
Proof. eexists _, _, _. repeat split; vm_compute; reflexivity. Qed.

(** The end-to-end scenario: the dimensions resolve to [1,4,4,3], [finish]
    selects device 1, and [allocate] returns the memory of that device with
    a device validator of 1*4*4*3 elements of four bytes, uninitialized. *)
Example end_to_end_scenario :
  dimensions (mDesc ex_builder_scenario) = [1; 4; 4; 3]
  /\ exists b' memory v,
      finish ex_builder_scenario = Some (ANEURALNETWORKS_NO_ERROR, b')
      /\ mAllocator b' = 1
      /\ allocate b' = Some (ANEURALNETWORKS_NO_ERROR, Some memory, [CallDeviceAllocate 1])
      /\ mValidator memory = Some v
      /\ isInitialized v = false
      /\ logicalSize <$> getMetadata (setInitialized true v) = Some 192.
Proof.
  split; [reflexivity|].
  eexists _, _, _. repeat split; vm_compute; reflexivity.
Qed.

Lemma ex_builder_two_devices_finished_reachable :
  reachable ex_builder_two_devices_finished.
Proof.
  apply (reachable_finish ex_builder_two_devices_sized ANEURALNETWORKS_NO_ERROR).
  - apply reachable_call, ex_builder_two_devices_reachable.
  - vm_compute. reflexivity.
Qed.

Lemma allocate_error_handling_witness :
  allocate ex_builder_two_devices = Some (ANEURALNETWORKS_BAD_STATE, None, [])
  /\ exists n memory,
      allocate ex_builder_two_devices_finished
      = Some (n, memory, [CallMemoryAshmemCreate 32]).
Proof.
  destruct (allocate_error_handling ex_builder_two_devices
              ex_builder_two_devices_reachable) as [Hunfinished _].
  destruct (allocate_error_handling ex_builder_two_devices_finished
              ex_builder_two_devices_finished_reachable) as [_ Hfinished].
  split; [apply Hunfinished; reflexivity|].
  destruct (Hfinished eq_refl) as (operand & Hop & _ & Hsize).
  change (Some (ex_tensor [0; 4]) = Some operand) in Hop.
  injection Hop as <-.
  assert (Hnonzero : getSizeOfData (type (ex_tensor [0; 4]))
                       (dimensions (mDesc ex_builder_two_devices_finished)) <> 0)
    by (vm_compute; discriminate).
  destruct (Hsize Hnonzero) as [Hnull _].
  destruct (Hnull eq_refl) as (n & memory & Halloc & _).
  exists n, memory. exact Halloc.
Defined.

End Concrete.

(** * Further properties *)

(** ** The lifecycle of a descriptor *)

Section BuilderLifecycle.
Context `{HalTypes} `{ValidatorBase} `{TypeManager} `{!DeviceDriver}.

(** [setDimensions] changes nothing but the dimensions of the descriptor,
    and nothing at all when it fails; it answers BAD_STATE exactly on a
    finished descriptor, and otherwise NO_ERROR or BAD_DATA. *)
Theorem setDimensions_frame b dims :
  (fst (setDimensions b dims) <> ANEURALNETWORKS_NO_ERROR ->
   snd (setDimensions b dims) = b)
  /\ mRoles (snd (setDimensions b dims)) = mRoles b
  /\ mOperand (snd (setDimensions b dims)) = mOperand b
  /\ mFinished (snd (setDimensions b dims)) = mFinished b
  /\ mAllocator (snd (setDimensions b dims)) = mAllocator b
  /\ preparedModels (mDesc (snd (setDimensions b dims))) = preparedModels (mDesc b)
  /\ inputRoles (mDesc (snd (setDimensions b dims))) = inputRoles (mDesc b)
  /\ outputRoles (mDesc (snd (setDimensions b dims))) = outputRoles (mDesc b)
  /\ (fst (setDimensions b dims) = ANEURALNETWORKS_BAD_STATE <-> mFinished b = true)
  /\ (fst (setDimensions b dims) = ANEURALNETWORKS_NO_ERROR
      \/ fst (setDimensions b dims) = ANEURALNETWORKS_BAD_STATE
      \/ fst (setDimensions b dims) = ANEURALNETWORKS_BAD_DATA).
Proof.
  unfold setDimensions, badState.
  destruct (mFinished b) eqn:Hfin; cbn; [intuition congruence|].
  destruct (match mOperand b with
            | Some o => negb (isTensorType (type o)) && negb (bool_decide (dims = []))
            | None => false
            end); cbn; [intuition congruence|].
  destruct (combineDimensions (dimensions (mDesc b)) dims); cbn; intuition congruence.
Qed.

(** Once a descriptor is finished, [addRole], [setDimensions] and [finish]
    all answer BAD_STATE and leave it as it is. *)
Theorem finished_descriptor_immutable b :
  mFinished b = true ->
  (forall p c io i f, addRole b p c io i f = (ANEURALNETWORKS_BAD_STATE, b))
  /\ (forall dims, setDimensions b dims = (ANEURALNETWORKS_BAD_STATE, b))
  /\ finish b = Some (ANEURALNETWORKS_BAD_STATE, b).
Proof.
  intros Hfin. repeat split; intros;
    unfold addRole, setDimensions, finish, badState; rewrite Hfin; reflexivity.
Qed.

(** [addRole] answers BAD_STATE exactly on a finished descriptor, and
    otherwise NO_ERROR or BAD_DATA; when it succeeds, the role was not
    registered before and is registered afterwards, the roles that were
    registered stay, and the descriptor is still not finished. *)
Theorem addRole_result b p c io i f :
  (fst (addRole b p c io i f) = ANEURALNETWORKS_BAD_STATE <-> mFinished b = true)
  /\ (fst (addRole b p c io i f) = ANEURALNETWORKS_NO_ERROR
      \/ fst (addRole b p c io i f) = ANEURALNETWORKS_BAD_STATE
      \/ fst (addRole b p c io i f) = ANEURALNETWORKS_BAD_DATA)
  /\ (fst (addRole b p c io i f) = ANEURALNETWORKS_NO_ERROR ->
      ((p, io, i) ∉ mRoles b)
      /\ mRoles (snd (addRole b p c io i f)) = {[ (p, io, i) ]} ∪ mRoles b
      /\ is_Some (mOperand (snd (addRole b p c io i f)))
      /\ mFinished (snd (addRole b p c io i f)) = false
      /\ mAllocator (snd (addRole b p c io i f)) = mAllocator b).
Proof.
  destruct (addRole b p c io i f) as [n b'] eqn:Hcall. cbn.
  apply addRole_inv in Hcall
    as [(Hfin & -> & ->)|[(Hfin & -> & ->)
                         |(-> & Hfin & Hnew & _ & _ & Hroles & Hop & Hfin' & Halloc & _)]].
  - repeat split; auto; discriminate.
  - repeat split; auto; try discriminate; congruence.
  - repeat split; auto; try discriminate; congruence.
Qed.

(** An index that is not below the number of inputs (of outputs, for an
    output role) of the model is rejected with BAD_DATA, the builder
    unchanged: no operand is read out of range. *)
Theorem addRole_index_out_of_range b p c io i f :
  mFinished b = false ->
  match io with
  | INPUT => inputCount (getModel c) <= i
  | OUTPUT => outputCount (getModel c) <= i
  end ->
  addRole b p c io i f = (ANEURALNETWORKS_BAD_DATA, b).
Proof.
  intros Hfin Hrange. unfold addRole, badState. rewrite Hfin.
  case_bool_decide; [reflexivity|].
  destruct (match io with
            | INPUT => forEachStepRoleOfInput c i
            | OUTPUT => forEachStepRoleOfOutput c i
            end) as [r roles].
  destruct (negb (bool_decide (r = ANEURALNETWORKS_NO_ERROR))); [reflexivity|].
  destruct io.
  - apply N.leb_le in Hrange. rewrite Hrange. reflexivity.
  - apply N.leb_le in Hrange. rewrite Hrange. reflexivity.
Qed.

(** What a successful [addRole] has done. *)
Lemma addRole_success_inv b p c io i f b' :
  addRole b p c io i f = (ANEURALNETWORKS_NO_ERROR, b') ->
  exists roles operand combined,
    match io with
    | INPUT => forEachStepRoleOfInput c i
    | OUTPUT => forEachStepRoleOfOutput c i
    end = (ANEURALNETWORKS_NO_ERROR, roles)
    /\ match io with
       | INPUT => i < inputCount (getModel c) /\ getInputOperand (getModel c) i = Some operand
       | OUTPUT => i < outputCount (getModel c) /\ getOutputOperand (getModel c) i = Some operand
       end
    /\ combineDimensions (dimensions (mDesc b)) (operand_dimensions operand) = Some combined
    /\ SFltb float_1_0 f = false /\ SFleb f float_0_0 = false
    /\ b' = mkMemoryBuilder _
              (mkMemoryDescriptor combined
                 (preparedModels (fold_left (addStepRole f) roles (mDesc b)))
                 (inputRoles (fold_left (addStepRole f) roles (mDesc b)))
                 (outputRoles (fold_left (addStepRole f) roles (mDesc b))))
              ({[ (p, io, i) ]} ∪ mRoles b) (Some operand) (mFinished b) (mAllocator b).
Proof.
  unfold addRole, badState. intros Hcall.
  destruct (mFinished b) eqn:Hfin; [discriminate|].
  case_bool_decide as Hdup; [discriminate|].
  destruct (match io with
            | INPUT => forEachStepRoleOfInput c i
            | OUTPUT => forEachStepRoleOfOutput c i
            end) as [r roles] eqn:Hstep.
  case_bool_decide as Hr; cbn [negb] in Hcall; [subst r|discriminate].
  destruct (match io with
            | INPUT => if inputCount (getModel c) <=? i then None
                       else getInputOperand (getModel c) i
            | OUTPUT => if outputCount (getModel c) <=? i then None
                        else getOutputOperand (getModel c) i
            end) as [operand|] eqn:Hop; [|discriminate].
  destruct (match mOperand b with
            | Some o => differentOperandSignature operand o
            | None => false
            end); [discriminate|].
  destruct (negb (isTensorType (type operand))
            && negb (bool_decide (dimensions (mDesc b) = []))); [discriminate|].
  destruct (combineDimensions (dimensions (mDesc b)) (operand_dimensions operand))
    as [combined|] eqn:Hcomb; [|discriminate].
  destruct (SFltb float_1_0 f || SFleb f float_0_0) eqn:Hfreq; [discriminate|].
  apply orb_false_elim in Hfreq as [Hgt Hle].
  injection Hcall as <-.
  exists roles, operand, combined.
  split; [reflexivity|]. split.
  { destruct io.
    - destruct (N.leb_spec (inputCount (getModel c)) i); [discriminate|]. auto.
    - destruct (N.leb_spec (outputCount (getModel c)) i); [discriminate|]. auto. }
  auto.
Qed.

Lemma addStepRole_roles f desc r :
  exists role,
    frequency role = f
    /\ ((inputRoles (addStepRole f desc r) = inputRoles desc ++ [role]
         /\ outputRoles (addStepRole f desc r) = outputRoles desc)
        \/ (inputRoles (addStepRole f desc r) = inputRoles desc
            /\ outputRoles (addStepRole f desc r) = outputRoles desc ++ [role])).
Proof.
  unfold addStepRole. destruct r as [[pm ty] ind].
  destruct (preparedModels_add (preparedModels desc) pm) as [modelIndex models].
  destruct ty; cbn; eexists (mkBufferRole modelIndex ind f); cbn; auto.
Qed.

(** The buffer roles of a descriptor, input roles first. *)
Lemma fold_addStepRole_roles f roles : forall desc,
  (length (inputRoles (fold_left (addStepRole f) roles desc))
   + length (outputRoles (fold_left (addStepRole f) roles desc))
   = length (inputRoles desc) + length (outputRoles desc) + length roles)%nat
  /\ forall P : BufferRole -> Prop,
       (forall role, frequency role = f -> P role) ->
       Forall P (inputRoles desc) -> Forall P (outputRoles desc) ->
       Forall P (inputRoles (fold_left (addStepRole f) roles desc))
       /\ Forall P (outputRoles (fold_left (addStepRole f) roles desc)).
Proof.
  induction roles as [|r roles IH]; intros desc; cbn.
  - split; [lia | auto].
  - destruct (IH (addStepRole f desc r)) as [Hlen Hall].
    destruct (addStepRole_roles f desc r)
      as (role & Hf & [[Hin Hout]|[Hin Hout]]).
    + split.
      * rewrite Hlen, Hin, Hout, length_app. cbn. lia.
      * intros P HP Hi Ho. apply Hall; [exact HP | | rewrite Hout; exact Ho].
        rewrite Hin. apply Forall_app. split; [exact Hi|].
        constructor; [apply HP; exact Hf | constructor].
    + split.
      * rewrite Hlen, Hin, Hout, length_app. cbn. lia.
      * intros P HP Hi Ho. apply Hall; [exact HP | rewrite Hin; exact Hi |].
        rewrite Hout. apply Forall_app. split; [exact Ho|].
        constructor; [apply HP; exact Hf | constructor].
Qed.

(** A successful [addRole] records the operand of the model at the index and
    adds one buffer role for each step role that the compilation names for
    it. *)
Theorem addRole_records_step_roles b p c io i f :
  fst (addRole b p c io i f) = ANEURALNETWORKS_NO_ERROR ->
  exists roles operand,
    match io with
    | INPUT => forEachStepRoleOfInput c i
    | OUTPUT => forEachStepRoleOfOutput c i
    end = (ANEURALNETWORKS_NO_ERROR, roles)
    /\ match io with
       | INPUT => inputOperands (getModel c) !! N.to_nat i = Some operand
       | OUTPUT => outputOperands (getModel c) !! N.to_nat i = Some operand
       end
    /\ mOperand (snd (addRole b p c io i f)) = Some operand
    /\ (length (inputRoles (mDesc (snd (addRole b p c io i f))))
        + length (outputRoles (mDesc (snd (addRole b p c io i f))))
        = length (inputRoles (mDesc b)) + length (outputRoles (mDesc b))
          + length roles)%nat.
Proof.
  destruct (addRole b p c io i f) as [n b'] eqn:Hcall. cbn. intros ->.
  apply addRole_success_inv in Hcall
    as (roles & operand & combined & Hstep & Hop & _ & _ & _ & ->).
  exists roles, operand. split; [exact Hstep|].
  split; [destruct io; apply Hop|]. split; [reflexivity|].
  cbn. apply fold_addStepRole_roles.
Qed.

Lemma setDimensions_cases b dims :
  snd (setDimensions b dims) = b
  \/ exists combined,
      snd (setDimensions b dims)
      = mkMemoryBuilder _
          (mkMemoryDescriptor combined (preparedModels (mDesc b))
                              (inputRoles (mDesc b)) (outputRoles (mDesc b)))
          (mRoles b) (mOperand b) (mFinished b) (mAllocator b).
Proof.
  unfold setDimensions.
  destruct (badState b); [auto|].
  destruct (match mOperand b with
            | Some o => negb (isTensorType (type o)) && negb (bool_decide (dims = []))
            | None => false
            end); [auto|].
  destruct (combineDimensions (dimensions (mDesc b)) dims); cbn; eauto.
Qed.

(** What every builder that exists satisfies, beside [builderInvariant]. *)
Lemma reachable_consistent b :
  reachable b ->
  (mRoles b <> ∅ <-> is_Some (mOperand b))
  /\ (mFinished b = true -> mRoles b <> ∅)
  /\ (mFinished b = false -> mAllocator b = nullptr)
  /\ (preparedModels (mDesc b) <> [] \/ inputRoles (mDesc b) <> []
      \/ outputRoles (mDesc b) <> [] -> mRoles b <> ∅)
  /\ Forall frequencyPassed (inputRoles (mDesc b))
  /\ Forall frequencyPassed (outputRoles (mDesc b)).
Proof.
  induction 1 as [|b c _ IH|b n b' _ IH Hfinish].
  - cbn.
    split; [split; [intros Hne; exfalso; apply Hne; reflexivity
                   | intros [o Ho]; discriminate]|].
    split; [discriminate|]. split; [reflexivity|].
    split; [intros [?|[?|?]]; congruence|]. split; constructor.
  - destruct IH as (I1 & I2 & I3 & I4 & I5 & I6).
    destruct c as [p compilation io i f|dims]; cbn.
    + destruct (addRole b p compilation io i f) as [n b'] eqn:Hcall. cbn.
      destruct n;
        try (apply addRole_inv in Hcall
               as [(_ & _ & ->)|[(_ & _ & ->)|(? & _)]];
             [repeat split; try apply I1; assumption
             |repeat split; try apply I1; assumption
             |discriminate]).
      pose proof Hcall as Hinv.
      apply addRole_inv in Hinv
        as [(_ & ? & _)|[(_ & ? & _)|(_ & Hfin & _)]]; try discriminate.
      apply addRole_success_inv in Hcall
        as (roles & operand & combined & _ & _ & _ & Hgt & Hle & ->).
      cbn. assert (Hne : {[(p, io, i)]} ∪ mRoles b <> ∅).
      { intros Hempty.
        apply (not_elem_of_empty (C := gset CompilationRole) (p, io, i)).
        rewrite <- Hempty. apply elem_of_union_l, elem_of_singleton. reflexivity. }
      destruct (fold_addStepRole_roles f roles (mDesc b)) as [_ Hall].
      destruct (Hall frequencyPassed) as [Hin Hout]; [|exact I5|exact I6|].
      { intros role <-. split; assumption. }
      repeat split; eauto; congruence.
    + destruct (setDimensions_cases b dims) as [->|[combined ->]]; cbn.
      * repeat split; try apply I1; assumption.
      * repeat split; try apply I1; assumption.
  - destruct IH as (I1 & I2 & I3 & I4 & I5 & I6).
    apply finish_inv in Hfinish
      as [(_ & ->)|(_ & Hfin & Hroles & Hop & _ & Hdesc & Hroles' & Hop' & Hfin')].
    + repeat split; try apply I1; assumption.
    + rewrite Hdesc, Hroles', Hop'.
      repeat split; try apply I1; try assumption; congruence.
Qed.

(** Every descriptor that the calls of the interface can produce is
    consistent: it has recorded an operand exactly when it has a role; a
    finished one has a role; one that is not finished has no allocator; and
    it has prepared models or buffer roles only when it has a role. *)
Theorem reachable_builder_consistent b :
  reachable b ->
  (mRoles b <> ∅ <-> is_Some (mOperand b))
  /\ (mFinished b = true -> mRoles b <> ∅)
  /\ (mFinished b = false -> mAllocator b = nullptr)
  /\ (preparedModels (mDesc b) <> [] \/ inputRoles (mDesc b) <> []
      \/ outputRoles (mDesc b) <> [] -> mRoles b <> ∅).
Proof.
  intros Hreach.
  destruct (reachable_consistent b Hreach) as (I1 & I2 & I3 & I4 & _).
  auto.
Qed.

(** Every buffer role of a descriptor that the calls of the interface can
    produce carries a frequency that passed the check of [addRole]: it is
    neither above 1.0 nor at most 0.0. *)
Theorem reachable_builder_frequencies b :
  reachable b ->
  Forall frequencyPassed (inputRoles (mDesc b) ++ outputRoles (mDesc b)).
Proof.
  intros Hreach.
  destruct (reachable_consistent b Hreach) as (_ & _ & _ & _ & I5 & I6).
  apply Forall_app. auto.
Qed.

(** With an allocator that is not null, the loop of
    [selectDeviceMemoryAllocator] ends with that allocator or leaves with
    nullptr. *)
Lemma selectDeviceLoop_cases models : forall allocator,
  allocator <> nullptr ->
  (selectDeviceLoop allocator models = inr allocator
   /\ forall pm, pm ∈ models -> PreparedModel_getDevice pm = allocator)
  \/ (selectDeviceLoop allocator models = inl nullptr
      /\ exists pm, pm ∈ models /\ PreparedModel_getDevice pm <> allocator).
Proof.
  induction models as [|pm0 rest IH]; intros allocator Hnn.
  - left. split; [reflexivity|]. intros pm Hin. inversion Hin.
  - cbn. destruct (N.eqb_spec allocator nullptr) as [|_]; [contradiction|].
    destruct (N.eqb_spec allocator (PreparedModel_getDevice pm0)) as [Heq|Hneq]; cbn.
    + destruct (IH allocator Hnn) as [[Hloop Hall]|[Hloop (pm & Hin & Hdev)]].
      * left. split; [exact Hloop|].
        intros pm Hin. apply elem_of_cons in Hin as [->|Hin]; auto.
      * right. split; [exact Hloop|]. exists pm. split; [right; exact Hin | exact Hdev].
    + right. split; [reflexivity|]. exists pm0. split; [left | congruence].
Qed.

(** The allocator that [selectDeviceMemoryAllocator] selects, where every
    prepared model has a device: the check fails exactly on a descriptor
    without prepared models; a device is selected exactly when it is the
    device of every prepared model; and none is selected exactly when two
    prepared models have different devices. *)
Theorem selectDeviceMemoryAllocator_spec desc :
  (forall pm, pm ∈ preparedModels desc -> PreparedModel_getDevice pm <> nullptr) ->
  (selectDeviceMemoryAllocator desc = None <-> preparedModels desc = [])
  /\ (forall device,
        device <> nullptr ->
        (selectDeviceMemoryAllocator desc = Some device
         <-> preparedModels desc <> []
             /\ forall pm, pm ∈ preparedModels desc -> PreparedModel_getDevice pm = device))
  /\ (selectDeviceMemoryAllocator desc = Some nullptr
      <-> exists pm1 pm2, pm1 ∈ preparedModels desc /\ pm2 ∈ preparedModels desc
                          /\ PreparedModel_getDevice pm1 <> PreparedModel_getDevice pm2).
Proof.
  intros Hnn. unfold selectDeviceMemoryAllocator.
  destruct (preparedModels desc) as [|pm0 rest] eqn:Hmodels.
  - cbn. split; [tauto|]. split.
    + intros device Hdev. split; [discriminate | intros [? _]; congruence].
    + split; [discriminate | intros (pm1 & _ & Hin & _); inversion Hin].
  - cbn. assert (Hd0 : PreparedModel_getDevice pm0 <> nullptr) by (apply Hnn; left).
    destruct (selectDeviceLoop_cases rest _ Hd0) as [[-> Hall]|[-> (pm & Hin & Hdev)]].
    + destruct (N.eqb_spec (PreparedModel_getDevice pm0) nullptr) as [|_];
        [contradiction|].
      split; [split; discriminate|]. split.
      * intros device Hdevice. split.
        -- intros [= <-]. split; [discriminate|].
           intros pm Hin. apply elem_of_cons in Hin as [->|Hin]; auto.
        -- intros [_ Hsame]. f_equal. apply Hsame. left.
      * split; [intros [= Heq]; congruence|].
        intros (pm1 & pm2 & Hin1 & Hin2 & Hne). exfalso. apply Hne.
        transitivity (PreparedModel_getDevice pm0).
        -- apply elem_of_cons in Hin1 as [->|Hin1]; auto.
        -- symmetry. apply elem_of_cons in Hin2 as [->|Hin2]; auto.
    + split; [split; discriminate|]. split.
      * intros device Hdevice. split; [intros [= Heq]; congruence|].
        intros [_ Hsame]. exfalso. apply Hdev.
        rewrite (Hsame pm) by (right; exact Hin). symmetry. apply Hsame. left.
      * split; [|reflexivity]. intros _.
        exists pm, pm0. split; [right; exact Hin|]. split; [left | exact Hdev].
Qed.

(** [finish] on a descriptor without roles fails with BAD_DATA and leaves it
    unfinished, whatever dimensions were set on it: setting dimensions does
    not stand for a role. *)
Theorem finish_without_roles dimsList :
  let b := runCalls MemoryBuilder_new (map DoSetDimensions dimsList) in
  finish b = Some (ANEURALNETWORKS_BAD_DATA, b) /\ mFinished b = false.
Proof.
  cbn zeta.
  assert (Hinv : forall b, mFinished b = false -> mRoles b = ∅ ->
                 mFinished (runCalls b (map DoSetDimensions dimsList)) = false
                 /\ mRoles (runCalls b (map DoSetDimensions dimsList)) = ∅).
  { induction dimsList as [|dims rest IH]; intros b Hfin Hroles; [auto|].
    cbn. apply IH.
    - destruct (setDimensions_cases b dims) as [->|[combined ->]]; auto.
    - destruct (setDimensions_cases b dims) as [->|[combined ->]]; auto. }
  destruct (Hinv MemoryBuilder_new eq_refl eq_refl) as [Hfin Hroles].
  split; [|exact Hfin].
  unfold finish, badState. rewrite Hfin, Hroles.
  rewrite bool_decide_eq_true_2 by reflexivity. reflexivity.
Qed.

(** On a descriptor that is not finished, has prepared models, and whose
    prepared models all have the same device, [finish] returns NO_ERROR,
    selects that device and changes nothing else but the finished flag. *)
Theorem finish_single_device b device :
  reachable b -> mFinished b = false ->
  preparedModels (mDesc b) <> [] -> device <> nullptr ->
  (forall pm, pm ∈ preparedModels (mDesc b) -> PreparedModel_getDevice pm = device) ->
  is_Some (mOperand b)
  /\ finish b
     = Some (ANEURALNETWORKS_NO_ERROR,
             mkMemoryBuilder _ (mDesc b) (mRoles b) (mOperand b) true device).
Proof.
  intros Hreach Hfin Hmodels Hdevice Hsame.
  destruct (reachable_consistent b Hreach) as (I1 & _ & _ & I4 & _).
  assert (Hroles : mRoles b <> ∅) by (apply I4; left; exact Hmodels).
  destruct (proj1 I1 Hroles) as [operand Hop].
  split; [eauto|].
  unfold finish, badState. rewrite Hfin.
  rewrite bool_decide_eq_false_2 by exact Hroles.
  rewrite Hop. cbn.
  unfold selectDeviceMemoryAllocator.
  destruct (preparedModels (mDesc b)) as [|pm0 rest]; [contradiction|].
  cbn. rewrite (Hsame pm0) by left.
  destruct (selectDeviceLoop_cases rest device Hdevice)
    as [[-> _]|[_ (pm & Hin & Hdev)]].
  - destruct (N.eqb_spec device nullptr) as [|_]; [contradiction|]. reflexivity.
  - exfalso. apply Hdev, Hsame. right. exact Hin.
Qed.

(** [finish] trips its check, where every prepared model has a device,
    exactly on a descriptor that is not finished and has a role but no
    prepared model: a role for which the compilation named no step. *)
Theorem finish_aborts_iff b :
  reachable b ->
  (forall pm, pm ∈ preparedModels (mDesc b) -> PreparedModel_getDevice pm <> nullptr) ->
  (finish b = None
   <-> mFinished b = false /\ mRoles b <> ∅ /\ preparedModels (mDesc b) = []).
Proof.
  intros Hreach Hnn.
  destruct (reachable_consistent b Hreach) as (I1 & _).
  unfold finish, badState.
  destruct (mFinished b); [split; [discriminate | intros [? _]; discriminate]|].
  case_bool_decide as Hroles; [split; [discriminate | intros (_ & ? & _); contradiction]|].
  destruct (proj1 I1 Hroles) as [operand ->]. cbn.
  unfold selectDeviceMemoryAllocator.
  destruct (preparedModels (mDesc b)) as [|pm0 rest].
  - cbn. split; auto.
  - cbn. assert (Hd0 : PreparedModel_getDevice pm0 <> nullptr) by (apply Hnn; left).
    destruct (selectDeviceLoop_cases rest _ Hd0) as [[-> _]|[-> _]]; cbn.
    + destruct (N.eqb_spec (PreparedModel_getDevice pm0) nullptr) as [|_];
        [contradiction|].
      cbn. split; [discriminate | intros (_ & _ & ?); discriminate].
    + split; [discriminate | intros (_ & _ & ?); discriminate].
Qed.

End BuilderLifecycle.

(** ** What [allocate] returns *)

Section AllocationResult.
Context `{HalTypes} `{ValidatorBase} `{TypeManager} `{Platform} `{!DeviceDriver}.

Ltac allocate_goals :=
  repeat split;
  solve [ discriminate | reflexivity | assumption | contradiction | eauto 6
        | intros [? ?]; discriminate
        | intros ? ?; discriminate
        | intros ? [= <-]; eauto
        | intros; congruence
        | intros _ ? Hin; inversion Hin
        | intros _ ? Hin;
          apply elem_of_cons in Hin as [?|Hin]; [discriminate | inversion Hin] ].

Lemma allocate_cases b n memory calls :
  allocate b = Some (n, memory, calls) ->
  (n = ANEURALNETWORKS_NO_ERROR <-> is_Some memory)
  /\ (n = ANEURALNETWORKS_BAD_STATE <-> mFinished b = false)
  /\ (forall m, memory = Some m ->
       exists operand,
         mOperand b = Some operand
         /\ mValidator m
            = Some (newDeviceMemoryValidator (mRoles b) operand (dimensions (mDesc b)))
         /\ getSizeOfData (type operand) (dimensions (mDesc b)) <> 0)
  /\ (calls = []
      \/ calls = [CallDeviceAllocate (mAllocator b)]
      \/ (exists size, calls = [CallMemoryAshmemCreate size])
      \/ (exists size, calls = [CallDeviceAllocate (mAllocator b);
                                CallMemoryAshmemCreate size]))
  /\ (mAllocator b = nullptr -> forall device, CallDeviceAllocate device ∉ calls).
Proof.
  unfold allocate. intros Hcall.
  destruct (mFinished b) eqn:Hfin; cbn in Hcall;
    [|injection Hcall as <- <- <-; allocate_goals].
  destruct (mOperand b) as [operand|] eqn:Hop; [|discriminate]. cbn in Hcall.
  destruct (N.eqb_spec (getSizeOfData (type operand) (dimensions (mDesc b))) 0)
    as [Hzero|Hsize]; [injection Hcall as <- <- <-; allocate_goals|].
  destruct (N.eqb_spec (mAllocator b) nullptr) as [Hnull|Hnonnull]; cbn in Hcall.
  - destruct (MemoryAshmem_create_cases
                (getSizeOfData (type operand) (dimensions (mDesc b))))
      as [(m & Hcreate)|Hcreate]; rewrite Hcreate in Hcall; cbn in Hcall;
      injection Hcall as <- <- <-; allocate_goals.
  - destruct (Device_allocate (mAllocator b) (mDesc b)) as [n0 memory0].
    case_bool_decide as Hn0; cbn in Hcall.
    + subst n0. destruct memory0 as [m|]; [|discriminate]. cbn in Hcall.
      injection Hcall as <- <- <-; allocate_goals.
    + destruct (MemoryAshmem_create_cases
                  (getSizeOfData (type operand) (dimensions (mDesc b))))
        as [(m & Hcreate)|Hcreate]; rewrite Hcreate in Hcall; cbn in Hcall;
        injection Hcall as <- <- <-; allocate_goals.
Qed.

(** Whenever [allocate] returns, it returns a memory exactly when it returns
    NO_ERROR, and BAD_STATE exactly on a descriptor that is not finished.
    The memory it returns carries a new device validator made of the roles,
    the operand and the dimensions of the descriptor.  It calls the device
    at most once and [MemoryAshmem::create] at most once, the device first,
    and no device at all when no allocator was selected. *)
Theorem allocate_result b n memory calls :
  allocate b = Some (n, memory, calls) ->
  (n = ANEURALNETWORKS_NO_ERROR <-> is_Some memory)
  /\ (n = ANEURALNETWORKS_BAD_STATE <-> mFinished b = false)
  /\ (forall m, memory = Some m ->
       exists operand,
         mOperand b = Some operand
         /\ mValidator m
            = Some (newDeviceMemoryValidator (mRoles b) operand (dimensions (mDesc b)))
         /\ getSizeOfData (type operand) (dimensions (mDesc b)) <> 0)
  /\ (calls = []
      \/ calls = [CallDeviceAllocate (mAllocator b)]
      \/ (exists size, calls = [CallMemoryAshmemCreate size])
      \/ (exists size, calls = [CallDeviceAllocate (mAllocator b);
                                CallMemoryAshmemCreate size]))
  /\ (mAllocator b = nullptr -> forall device, CallDeviceAllocate device ∉ calls).
Proof. apply allocate_cases. Qed.



End AllocationResult.

(** ** More on validators and copying *)

Section CopyEffects.
Context `{HalTypes} `{ValidatorBase} `{TypeManager} `{Platform} `{IBufferDriver}.

Lemma updateMetadata_inv v metadata ok v' :
  updateMetadata v metadata = (ok, v') ->
  (ok = false /\ v' = v)
  \/ (ok = true
      /\ ((isDeviceMemoryValidator v = false /\ v' = v)
          \/ exists roles kOperand init upd b combined,
              v = DeviceMemoryValidator roles kOperand init upd b
              /\ operandAccepted metadata kOperand
              /\ combineDimensions (md_dimensions metadata) init = Some combined
              /\ v' = DeviceMemoryValidator roles kOperand init combined b)).
Proof.
  destruct v as [base kSize|base|roles kOperand init upd b]; cbn.
  - intros [= <- <-].
    destruct ((logicalSize metadata =? 0) || (logicalSize metadata =? kSize)); auto.
  - intros [= <- <-]. auto.
  - unfold operandAccepted.
    destruct (md_operand metadata) as [o|]; cbn.
    + destruct (sameOperandSignature o kOperand) eqn:Hsig; cbn; [|intros [= <- <-]; auto].
      destruct (bool_decide (md_dimensions metadata = []) || isTensorType (type kOperand));
        cbn; [|intros [= <- <-]; auto].
      destruct (combineDimensions (md_dimensions metadata) init) as [combined|] eqn:Hcomb;
        cbn; [|intros [= <- <-]; auto].
      destruct ((logicalSize metadata =? 0)
                || (logicalSize metadata =? getSizeOfData (type kOperand) combined));
        cbn; intros [= <- <-]; [|auto].
      right. split; [reflexivity|]. right.
      exists roles, kOperand, init, upd, b, combined. auto.
    + destruct (bool_decide (md_dimensions metadata = []) || isTensorType (type kOperand));
        cbn; [|intros [= <- <-]; auto].
      destruct (combineDimensions (md_dimensions metadata) init) as [combined|] eqn:Hcomb;
        cbn; [|intros [= <- <-]; auto].
      destruct ((logicalSize metadata =? 0)
                || (logicalSize metadata =? getSizeOfData (type kOperand) combined));
        cbn; intros [= <- <-]; [|auto].
      right. split; [reflexivity|]. right.
      exists roles, kOperand, init, upd, b, combined. auto.
Qed.

Lemma updateMetadata_cases v metadata :
  (fst (updateMetadata v metadata) = false /\ snd (updateMetadata v metadata) = v)
  \/ (fst (updateMetadata v metadata) = true
      /\ ((isDeviceMemoryValidator v = false /\ snd (updateMetadata v metadata) = v)
          \/ exists roles kOperand init upd b combined,
              v = DeviceMemoryValidator roles kOperand init upd b
              /\ operandAccepted metadata kOperand
              /\ combineDimensions (md_dimensions metadata) init = Some combined
              /\ snd (updateMetadata v metadata)
                 = DeviceMemoryValidator roles kOperand init combined b)).
Proof.
  destruct (updateMetadata v metadata) as [ok v'] eqn:Hupd.
  apply updateMetadata_inv in Hupd. exact Hupd.
Qed.

(** [updateMetadata] changes a validator only when it accepts the metadata,
    and then nothing but the resolved dimensions of a device validator,
    which become the combination of the incoming dimensions with the
    initial ones, whatever they were before.  The initialized flag and the
    answers of [validate], which reads the roles, the operand and the
    initial dimensions, are the same afterwards. *)
Theorem updateMetadata_frame v metadata :
  (fst (updateMetadata v metadata) = false -> snd (updateMetadata v metadata) = v)
  /\ isInitialized (snd (updateMetadata v metadata)) = isInitialized v
  /\ (forall compilation io i ty offset len,
        validate (snd (updateMetadata v metadata)) compilation io i ty offset len
        = validate v compilation io i ty offset len)
  /\ (forall roles kOperand init upd b,
        v = DeviceMemoryValidator roles kOperand init upd b ->
        fst (updateMetadata v metadata) = true ->
        exists combined,
          combineDimensions (md_dimensions metadata) init = Some combined
          /\ snd (updateMetadata v metadata)
             = DeviceMemoryValidator roles kOperand init combined b).
Proof.
  destruct (updateMetadata_cases v metadata) as [[Hok Hsame]|[Hok Hcases]].
  - rewrite Hsame. split; [auto|]. split; [reflexivity|]. split; [reflexivity|].
    intros. congruence.
  - destruct Hcases
      as [[Hkind Hsame]
         |(roles & kOperand & init & upd & b & combined & Hv & _ & Hcomb & Hsnd)].
    + rewrite Hsame. split; [auto|]. split; [reflexivity|]. split; [reflexivity|].
      intros roles kOperand init upd b Hv _. subst v. discriminate.
    + rewrite Hsnd. subst v. split; [congruence|]. split; [reflexivity|].
      split; [reflexivity|].
      intros ? ? ? ? ? [= <- <- <- <- <-] _. eauto.
Qed.

Lemma storeValidator_lookup (h : Heap) p v m' :
  storeValidator h p v !! p = Some m' ->
  exists m, h !! p = Some m /\ m' = setValidator m v.
Proof.
  unfold storeValidator. destruct (h !! p) as [m|] eqn:Hm.
  - rewrite lookup_insert_eq. intros [= <-]. eauto.
  - rewrite Hm. discriminate.
Qed.

(** The heap after [copyInternal]: the heap before, the validator of the
    destination possibly rewritten. *)
Lemma copyInternal_heap (h : Heap) src dst n h1 :
  copyInternal h src dst = Some (n, h1) ->
  h1 = h \/ exists v, h1 = storeValidator h dst v.
Proof.
  unfold copyInternal.
  case_bool_decide; [intros [= <- <-]; auto|].
  destruct (getValidator h src) as [vsrc|]; cbn; [|discriminate].
  destruct (isInitialized vsrc); cbn; [|intros [= <- <-]; auto].
  destruct (getMetadata vsrc) as [metadata|]; cbn; [|discriminate].
  destruct (getValidator h dst) as [vdst|]; cbn; [|discriminate].
  destruct (updateMetadata vdst metadata) as [ok vdst'].
  destruct ok; cbn; [|intros [= <- <-]; eauto].
  destruct (h !! src) as [s|]; cbn; [|discriminate].
  destruct (h !! dst) as [d|]; cbn; [|discriminate].
  repeat case_match; intros [= <- <-]; eauto.
Qed.

(** Whenever [copy] returns, it has changed no memory object but the
    destination, so the source is as it was, and of the destination nothing
    but the validator: its [hidl_memory], its buffer and its token are the
    same. *)
Theorem copy_frame (h : Heap) src dst n h' :
  copy h src dst = Some (n, h') ->
  (forall p, p <> dst -> h' !! p = h !! p)
  /\ exists d d',
      h !! dst = Some d /\ h' !! dst = Some d'
      /\ kHidlMemory d' = kHidlMemory d
      /\ kBuffer d' = kBuffer d
      /\ kToken d' = kToken d
      /\ is_Some (mValidator d').
Proof.
  unfold copy. intros Hcopy.
  destruct (copyInternal h src dst) as [[n1 h1]|] eqn:Hinternal; [|discriminate].
  cbn in Hcopy.
  destruct (getValidator h1 dst) as [v1|] eqn:Hv1; [|discriminate].
  cbn in Hcopy. injection Hcopy as <- <-.
  apply getValidator_Some in Hv1 as (m1 & Hm1 & _).
  assert (Hh1 : (forall p, p <> dst -> h1 !! p = h !! p)
                /\ exists d, h !! dst = Some d
                             /\ kHidlMemory m1 = kHidlMemory d
                             /\ kBuffer m1 = kBuffer d /\ kToken m1 = kToken d).
  { apply copyInternal_heap in Hinternal as [->|[v ->]].
    - split; [reflexivity | eauto].
    - split; [intros p Hp; apply storeValidator_other; congruence|].
      apply storeValidator_lookup in Hm1 as (d & Hd & ->). eauto. }
  destruct Hh1 as (Hother & d & Hd & Hhidl & Hbuf & Htok).
  split.
  - intros p Hp. rewrite storeValidator_other by congruence. apply Hother, Hp.
  - exists d. eexists. split; [exact Hd|].
    unfold storeValidator. rewrite Hm1, lookup_insert_eq.
    split; [reflexivity|]. cbn. eauto.
Qed.

(** What a NO_ERROR of [copyInternal] on two different objects tells. *)
Lemma copyInternal_success (h : Heap) src dst vsrc vdst h1 :
  src <> dst ->
  getValidator h src = Some vsrc ->
  getValidator h dst = Some vdst ->
  copyInternal h src dst = Some (ANEURALNETWORKS_NO_ERROR, h1) ->
  isInitialized vsrc = true
  /\ exists metadata,
      getMetadata vsrc = Some metadata
      /\ fst (updateMetadata vdst metadata) = true
      /\ h1 = storeValidator h dst (snd (updateMetadata vdst metadata)).
Proof.
  intros Hne Hsrc Hdst. unfold copyInternal.
  rewrite bool_decide_eq_false_2 by exact Hne.
  rewrite Hsrc. cbn.
  destruct (isInitialized vsrc); cbn; [|discriminate].
  destruct (getMetadata vsrc) as [metadata|]; cbn; [|discriminate].
  rewrite Hdst. cbn.
  destruct (updateMetadata vdst metadata) as [ok vdst'] eqn:Hupd.
  destruct ok; cbn; [|discriminate].
  destruct (h !! src) as [s|]; cbn; [|discriminate].
  destruct (h !! dst) as [d|]; cbn; [|discriminate].
  intros Hdispatch. split; [reflexivity|].
  exists metadata. rewrite Hupd. split; [reflexivity|]. split; [reflexivity|]. cbn.
  revert Hdispatch. repeat case_match; intros [= _ <-]; reflexivity.
Qed.

Lemma copy_success_parts (h : Heap) src dst vsrc vdst h' :
  src <> dst ->
  getValidator h src = Some vsrc ->
  getValidator h dst = Some vdst ->
  copy h src dst = Some (ANEURALNETWORKS_NO_ERROR, h') ->
  isInitialized vsrc = true
  /\ exists metadata,
      getMetadata vsrc = Some metadata
      /\ fst (updateMetadata vdst metadata) = true
      /\ getValidator h' dst
         = Some (setInitialized true (snd (updateMetadata vdst metadata))).
Proof.
  intros Hne Hsrc Hdst. unfold copy. intros Hcopy.
  destruct (copyInternal h src dst) as [[n1 h1]|] eqn:Hinternal; [|discriminate].
  cbn in Hcopy.
  destruct (getValidator h1 dst) as [v1|] eqn:Hv1; [|discriminate].
  cbn in Hcopy. injection Hcopy as -> <-.
  destruct (copyInternal_success h src dst vsrc vdst h1 Hne Hsrc Hdst Hinternal)
    as (Hinit & metadata & Hmd & Hok & ->).
  split; [exact Hinit|]. exists metadata. split; [exact Hmd|]. split; [exact Hok|].
  rewrite (getValidator_storeValidator h dst vdst _ Hdst) in Hv1.
  injection Hv1 as <-.
  apply (getValidator_storeValidator _ dst (snd (updateMetadata vdst metadata))).
  apply (getValidator_storeValidator h dst vdst _ Hdst).
Qed.

(** A [copy] between two different memory objects returns NO_ERROR only when
    the source is initialized and the destination has accepted the metadata
    of the source; the validator of the destination is then what
    [updateMetadata] made of it, marked initialized. *)
Theorem copy_success (h : Heap) src dst vsrc vdst h' :
  src <> dst ->
  getValidator h src = Some vsrc ->
  getValidator h dst = Some vdst ->
  copy h src dst = Some (ANEURALNETWORKS_NO_ERROR, h') ->
  isInitialized vsrc = true
  /\ exists metadata,
      getMetadata vsrc = Some metadata
      /\ fst (updateMetadata vdst metadata) = true
      /\ getValidator h' dst
         = Some (setInitialized true (snd (updateMetadata vdst metadata))).
Proof. apply copy_success_parts. Qed.

(** After a successful [copy] from one memory allocated from a descriptor
    to another, the destination is initialized, its resolved dimensions are
    the combination of the resolved dimensions of the source with its own
    initial dimensions, and it accepts exactly these dimensions for an
    input; its roles, operand and initial dimensions are as before, and the
    operand of the source has the same type, scale, zero point and extra
    parameters. *)
Theorem copy_between_device_memories (h : Heap) src dst h'
    rs os ks us bs rd od kd ud bd :
  src <> dst ->
  getValidator h src = Some (DeviceMemoryValidator rs os ks us bs) ->
  getValidator h dst = Some (DeviceMemoryValidator rd od kd ud bd) ->
  copy h src dst = Some (ANEURALNETWORKS_NO_ERROR, h') ->
  bs = true
  /\ sameOperandSignature os od = true
  /\ exists combined,
      combineDimensions us kd = Some combined
      /\ getValidator h' dst = Some (DeviceMemoryValidator rd od kd combined true)
      /\ forall dims,
          validateInputDimensions (DeviceMemoryValidator rd od kd combined true) dims = true
          <-> dims = combined.
Proof.
  intros Hne Hsrc Hdst Hcopy.
  destruct (copy_success_parts h src dst _ _ h' Hne Hsrc Hdst Hcopy)
    as (Hinit & metadata & Hmd & Hok & Hv).
  cbn in Hinit. subst bs. cbn in Hmd. injection Hmd as <-.
  destruct (updateMetadata_cases (DeviceMemoryValidator rd od kd ud bd)
              (mkMetadata _ (getSizeOfData (type os) us) us (Some os)))
    as [[Hfalse _]|[_ [[Hkind _]|(r & o & i & u & b & combined & Heq & Hacc & Hcomb & Hsnd)]]].
  - rewrite Hok in Hfalse. discriminate.
  - discriminate.
  - injection Heq as <- <- <- <- <-.
    split; [reflexivity|]. split; [exact Hacc|].
    exists combined. split; [exact Hcomb|].
    split; [rewrite Hv, Hsnd; reflexivity|].
    intros dims. cbn. case_bool_decide; cbn; intuition congruence.
Qed.

(** Two memory objects that are not both driver buffers and whose
    [hidl_memory] are valid but of different sizes: [copy] returns BAD_DATA,
    whatever the validators say. *)
Theorem copy_hidl_size_mismatch (h : Heap) src dst s d :
  src <> dst ->
  h !! src = Some s -> h !! dst = Some d ->
  is_Some (mValidator s) -> is_Some (mValidator d) ->
  kBuffer s = nullptr \/ kBuffer d = nullptr ->
  hidl_valid (kHidlMemory s) = true -> hidl_valid (kHidlMemory d) = true ->
  hidl_size (kHidlMemory s) <> hidl_size (kHidlMemory d) ->
  exists h', copy h src dst = Some (ANEURALNETWORKS_BAD_DATA, h').
Proof.
  intros Hne Hs Hd [vs Hvs] [vd Hvd] Hbuf Hsvalid Hdvalid Hsize.
  assert (Hsrc : getValidator h src = Some vs)
    by (unfold getValidator; rewrite Hs; exact Hvs).
  assert (Hdst : getValidator h dst = Some vd)
    by (unfold getValidator; rewrite Hd; exact Hvd).
  unfold copy, copyInternal.
  rewrite bool_decide_eq_false_2 by exact Hne.
  rewrite Hsrc. cbn.
  destruct (isInitialized vs) eqn:Hinit; cbn.
  2: { rewrite Hdst. cbn. eauto. }
  destruct (getMetadata_initialized vs Hinit) as [metadata ->].
  rewrite Hdst. cbn.
  destruct (updateMetadata vd metadata) as [ok vd'].
  pose proof (getValidator_storeValidator h dst vd vd' Hdst) as Hstored.
  destruct ok; cbn.
  2: { rewrite Hstored. cbn. eauto. }
  rewrite Hs, Hd. cbn.
  assert (Hboth : negb (kBuffer s =? nullptr) && negb (kBuffer d =? nullptr) = false).
  { destruct Hbuf as [-> | ->]; cbn; [reflexivity | apply andb_false_r]. }
  rewrite Hboth, Hsvalid, Hdvalid. cbn.
  unfold copyHidlMemories.
  destruct (N.eqb_spec (hidl_size (kHidlMemory s)) (hidl_size (kHidlMemory d)))
    as [|_]; [contradiction|].
  cbn. rewrite Hstored. cbn. eauto.
Qed.

End CopyEffects.

Section CopyAfterAllocate.
Context `{HalTypes} `{ValidatorBase} `{TypeManager} `{Platform} `{IBufferDriver}
  `{!DeviceDriver}.


End CopyAfterAllocate.

(** ** The other constructors *)

Section Constructors.
Context `{HalTypes} `{ValidatorBase} `{TypeManager}.

(** [MemoryFromDevice::create] returns NO_ERROR exactly when the buffer is
    not null and the token is positive, it returns a memory exactly when it
    returns NO_ERROR, and (BAD_DATA, nullptr) otherwise.  The memory holds
    the buffer and the token, it is handed to a driver as that token, and
    it has no validator yet. *)
Theorem MemoryFromDevice_create_spec buffer token :
  (fst (MemoryFromDevice_create buffer token) = ANEURALNETWORKS_NO_ERROR
   <-> buffer <> nullptr /\ 0 < token)
  /\ (fst (MemoryFromDevice_create buffer token) = ANEURALNETWORKS_NO_ERROR
      <-> is_Some (snd (MemoryFromDevice_create buffer token)))
  /\ (fst (MemoryFromDevice_create buffer token) <> ANEURALNETWORKS_NO_ERROR ->
      MemoryFromDevice_create buffer token = (ANEURALNETWORKS_BAD_DATA, None))
  /\ (fst (MemoryFromDevice_create buffer token) = ANEURALNETWORKS_NO_ERROR ->
      exists m,
        MemoryFromDevice_create buffer token = (ANEURALNETWORKS_NO_ERROR, Some m)
        /\ kBuffer m = buffer /\ kToken m = token
        /\ getMemoryPool m = MemoryPool_token token
        /\ mValidator m = None).
Proof.
  unfold MemoryFromDevice_create.
  destruct (N.eqb_spec buffer nullptr) as [Hnull|Hbuf]; cbn.
  - split; [split; [discriminate | intros [? _]; contradiction]|].
    split; [split; [discriminate | intros [? ?]; discriminate]|].
    split; [reflexivity | discriminate].
  - destruct (N.leb_spec token 0) as [Hle|Hlt]; cbn.
    + split; [split; [discriminate | intros [_ ?]; lia]|].
      split; [split; [discriminate | intros [? ?]; discriminate]|].
      split; [reflexivity | discriminate].
    + split; [split; [auto | reflexivity]|].
      split; [split; [eauto | reflexivity]|].
      split; [intros Hne; exfalso; apply Hne; reflexivity|].
      intros _. eexists. split; [reflexivity|]. cbn. repeat split.
      unfold getMemoryPool. cbn.
      destruct (N.ltb_spec 0 token); [reflexivity | lia].
Qed.

(** [MemoryAHWB::create] always returns a memory, handed to a driver as its
    [hidl_memory].  For the BLOB format the [hidl_memory] has the width of
    the buffer as its size and requests are checked against that width; for
    any other format its size is 0 and the memory can only be used whole,
    with offset and length zero, and never for a model constant. *)
Theorem MemoryAHWB_create_spec `{AHardwareBufferApi} ahwb :
  exists m v,
    MemoryAHWB_create ahwb = (ANEURALNETWORKS_NO_ERROR, Some m)
    /\ mValidator m = Some v
    /\ getMemoryPool m = MemoryPool_hidlMemory (kHidlMemory m)
    /\ (ahwb_format ahwb = AHARDWAREBUFFER_FORMAT_BLOB ->
        hidl_size (kHidlMemory m) = ahwb_width ahwb
        /\ forall compilation io i ty offset len,
            offset + len < 2 ^ 32 ->
            (validate v compilation io i ty offset len = true
             <-> offset + len <= ahwb_width ahwb /\ ~ (offset = 0 /\ len = 0)))
    /\ (ahwb_format ahwb <> AHARDWAREBUFFER_FORMAT_BLOB ->
        hidl_size (kHidlMemory m) = 0
        /\ forall compilation io i ty offset len,
            validate v compilation io i ty offset len = true
            <-> compilation <> nullptr /\ offset = 0 /\ len = 0).
Proof.
  unfold MemoryAHWB_create.
  destruct (N.eqb_spec (ahwb_format ahwb) AHARDWAREBUFFER_FORMAT_BLOB) as [Hblob|Hother].
  - eexists _, _. split; [reflexivity|]. split; [reflexivity|].
    split; [reflexivity|]. split; [|contradiction].
    intros _. split; [reflexivity|].
    intros. apply SizedMemoryValidator_validate_no_overflow. assumption.
  - eexists _, _. split; [reflexivity|]. split; [reflexivity|].
    split; [reflexivity|]. split; [contradiction|].
    intros _. split; [reflexivity|].
    intros compilation io i ty offset len. cbn.
    destruct (N.eqb_spec compilation nullptr), (N.eqb_spec offset 0),
      (N.eqb_spec len 0); cbn; intuition congruence.
Qed.

(** [(int32_t)x] read back as [uint32_t] is [x]. *)
Lemma to_int32_mod x : (0 <= x < 2 ^ 32 -> to_int32 x mod 2 ^ 32 = x)%Z.
Proof.
  intros Hx. unfold to_int32. destruct (Z.ltb_spec x (2 ^ 31)).
  - apply Z.mod_small. lia.
  - replace (x - 2 ^ 32)%Z with (x + (-1) * 2 ^ 32)%Z by lia.
    rewrite Z.mod_add by lia. apply Z.mod_small. lia.
Qed.

(** [MemoryFd::create] fails with BAD_DATA on a size of zero or a negative
    descriptor, and with UNEXPECTED_NULL when the descriptor cannot be
    duplicated or the handle cannot be made; it returns a memory exactly
    when none of this happens, and NO_ERROR exactly then. *)
Theorem MemoryFd_create_errors `{Posix} size prot fd offset :
  (size = 0 \/ (fd < 0)%Z ->
   MemoryFd_create size prot fd offset = (ANEURALNETWORKS_BAD_DATA, None))
  /\ (size <> 0 -> (0 <= fd)%Z ->
      dup fd = (-1)%Z \/ native_handle_create 1 3 = false ->
      MemoryFd_create size prot fd offset = (ANEURALNETWORKS_UNEXPECTED_NULL, None))
  /\ (fst (MemoryFd_create size prot fd offset) = ANEURALNETWORKS_NO_ERROR
      <-> is_Some (snd (MemoryFd_create size prot fd offset)))
  /\ (is_Some (snd (MemoryFd_create size prot fd offset))
      <-> size <> 0 /\ (0 <= fd)%Z /\ dup fd <> (-1)%Z
          /\ native_handle_create 1 3 = true).
Proof.
  unfold MemoryFd_create.
  destruct (N.eqb_spec size 0) as [Hzero|Hsize]; cbn.
  { split; [reflexivity|]. split; [contradiction|].
    split; [split; [discriminate | intros [? ?]; discriminate]|].
    split; [intros [? ?]; discriminate | intros [? _]; contradiction]. }
  destruct (Z.ltb_spec fd 0) as [Hneg|Hfd]; cbn.
  { split; [reflexivity|]. split; [lia|].
    split; [split; [discriminate | intros [? ?]; discriminate]|].
    split; [intros [? ?]; discriminate | intros (_ & ? & _); lia]. }
  destruct (Z.eqb_spec (dup fd) (-1)) as [Hdup|Hdup]; cbn.
  { split; [intros [?|?]; [contradiction | lia]|]. split; [reflexivity|].
    split; [split; [discriminate | intros [? ?]; discriminate]|].
    split; [intros [? ?]; discriminate | intros (_ & _ & ? & _); contradiction]. }
  destruct (native_handle_create 1 3); cbn.
  - split; [intros [?|?]; [contradiction | lia]|].
    split; [intros _ _ [?|?]; [contradiction | discriminate]|].
    split; [split; eauto|]. split; eauto.
  - split; [intros [?|?]; [contradiction | lia]|]. split; [reflexivity|].
    split; [split; [discriminate | intros [? ?]; discriminate]|].
    split; [intros [? ?]; discriminate | intros (_ & _ & _ & ?); discriminate].
Qed.

(** The handle that [MemoryFd::create] fills holds the duplicate of the
    descriptor, not the descriptor of the caller, then the protection, and
    the offset in two words from which the offset is read back whole; the
    memory has the size that was asked for, and its validator that size
    taken in 32 bits. *)
Theorem MemoryFd_create_handle `{Posix} size prot fd offset n handle m :
  MemoryFd_create size prot fd offset = (n, Some (handle, m)) ->
  nh_data handle !! 0%nat = Some (dup fd)
  /\ nh_data handle !! 1%nat = Some prot
  /\ nativeHandle_offset handle = Some (Z.of_N offset mod 2 ^ 64)%Z
  /\ (offset < 2 ^ 64 -> nativeHandle_offset handle = Some (Z.of_N offset))
  /\ hidl_size (kHidlMemory m) = size
  /\ mValidator m = Some (SizedMemoryValidator base_new (size mod 2 ^ 32)).
Proof.
  unfold MemoryFd_create.
  destruct ((size =? 0) || (fd <? 0)%Z); [discriminate|].
  destruct (dup fd =? -1)%Z; [discriminate|].
  destruct (native_handle_create 1 3); cbn; [|discriminate].
  intros [= <- <- <-]. cbn.
  assert (Hdecode :
    ((to_int32 (Z.land (Z.of_N offset mod 2 ^ 64) 4294967295 mod 2 ^ 32) mod 2 ^ 32
      + to_int32 (Z.shiftr (Z.of_N offset mod 2 ^ 64) 32 mod 2 ^ 32) mod 2 ^ 32 * 2 ^ 32)
     = Z.of_N offset mod 2 ^ 64)%Z).
  { set (bits := (Z.of_N offset mod 2 ^ 64)%Z).
    assert (Hbits : (0 <= bits < 2 ^ 64)%Z) by (apply Z.mod_pos_bound; lia).
    change 4294967295%Z with (Z.ones 32).
    rewrite Z.land_ones by lia. rewrite Z.mod_mod by lia.
    rewrite Z.shiftr_div_pow2 by lia.
    rewrite !to_int32_mod.
    - rewrite (Z.mod_small (bits / 2 ^ 32)).
      + pose proof (Z.div_mod bits (2 ^ 32)). lia.
      + split; [apply Z.div_pos; lia|]. apply Z.div_lt_upper_bound; lia.
    - apply Z.mod_pos_bound. lia.
    - apply Z.mod_pos_bound. lia. }
  split; [reflexivity|]. split; [reflexivity|].
  unfold nativeHandle_offset. cbn. rewrite Hdecode.
  split; [reflexivity|]. split; [|split; reflexivity].
  intros Hoff. rewrite Z.mod_small; [reflexivity|]. lia.
Qed.

End Constructors.

(** ** The properties at the concrete runtime *)

Section ConcreteLifecycle.
#[local] Existing Instances ex_HalTypes ex_TypeManager ex_ValidatorBase
  ex_Platform ex_IBufferDriver ex_DeviceDriver ex_AHardwareBufferApi ex_Posix.

Lemma ex_builder_scenario_reachable : reachable ex_builder_scenario.
Proof. apply reachable_runCalls, reachable_new. Qed.

Lemma ex_builder_no_steps_reachable : reachable ex_builder_no_steps.
Proof. apply reachable_runCalls, reachable_new. Qed.

Lemma ex_builder_scenario_finished_reachable : reachable ex_builder_scenario_finished.
Proof.
  apply (reachable_finish ex_builder_scenario ANEURALNETWORKS_NO_ERROR).
  - exact ex_builder_scenario_reachable.
  - vm_compute. reflexivity.
Qed.

Lemma finished_descriptor_immutable_witness :
  setDimensions ex_builder_two_devices_finished [2; 4]
  = (ANEURALNETWORKS_BAD_STATE, ex_builder_two_devices_finished)
  /\ finish ex_builder_two_devices_finished
     = Some (ANEURALNETWORKS_BAD_STATE, ex_builder_two_devices_finished).
Proof.
  destruct (finished_descriptor_immutable ex_builder_two_devices_finished eq_refl)
    as (_ & Hset & Hfinish).
  split; [apply Hset | exact Hfinish].
Defined.

Lemma addRole_index_out_of_range_witness :
  addRole MemoryBuilder_new 1000 ex_compilation INPUT 1 float_1_0
  = (ANEURALNETWORKS_BAD_DATA, MemoryBuilder_new).
Proof.
  apply addRole_index_out_of_range; [reflexivity|]. vm_compute. discriminate.
Defined.

Lemma addRole_records_step_roles_witness :
  exists roles operand,
    forEachStepRoleOfInput ex_compilation 0 = (ANEURALNETWORKS_NO_ERROR, roles)
    /\ inputOperands (getModel ex_compilation) !! 0%nat = Some operand
    /\ mOperand (snd (addRole MemoryBuilder_new 1000 ex_compilation INPUT 0 float_1_0))
       = Some operand.
Proof.
  assert (Hfirst : fst (addRole MemoryBuilder_new 1000 ex_compilation INPUT 0 float_1_0)
                   = ANEURALNETWORKS_NO_ERROR) by (vm_compute; reflexivity).
  destruct (addRole_records_step_roles MemoryBuilder_new 1000 ex_compilation INPUT 0
              float_1_0 Hfirst)
    as (roles & operand & Hstep & Hop & Hrec & _).
  exists roles, operand. auto.
Defined.

Lemma reachable_builder_consistent_witness :
  is_Some (mOperand ex_builder_two_devices)
  /\ mAllocator ex_builder_two_devices = nullptr.
Proof.
  destruct (reachable_builder_consistent ex_builder_two_devices
              ex_builder_two_devices_reachable)
    as (Hop & _ & Halloc & _).
  split; [|apply Halloc; reflexivity].
  apply Hop. vm_compute. discriminate.
Defined.

Lemma reachable_builder_frequencies_witness :
  Forall frequencyPassed
    (inputRoles (mDesc ex_builder_scenario) ++ outputRoles (mDesc ex_builder_scenario)).
Proof.
  apply reachable_builder_frequencies. exact ex_builder_scenario_reachable.
Defined.

Lemma selectDeviceMemoryAllocator_spec_witness :
  selectDeviceMemoryAllocator (mDesc ex_builder_two_devices) = Some nullptr.
Proof.
  apply (selectDeviceMemoryAllocator_spec (mDesc ex_builder_two_devices)
           (proj1 ex_builder_two_devices_spans)).
  exact (proj2 ex_builder_two_devices_spans).
Defined.

Lemma finish_single_device_witness :
  finish ex_builder_scenario
  = Some (ANEURALNETWORKS_NO_ERROR, ex_builder_scenario_finished).
Proof.
  refine (proj2 (finish_single_device ex_builder_scenario 1
                   ex_builder_scenario_reachable eq_refl _ _ _)).
  - vm_compute. discriminate.
  - discriminate.
  - change (preparedModels (mDesc ex_builder_scenario)) with [16].
    intros pm Hin.
    apply elem_of_cons in Hin as [->|Hin]; [reflexivity | inversion Hin].
Defined.

Lemma finish_aborts_iff_witness :
  mRoles ex_builder_no_steps <> ∅ /\ finish ex_builder_no_steps = None.
Proof.
  assert (Hroles : mRoles ex_builder_no_steps <> ∅) by (vm_compute; discriminate).
  split; [exact Hroles|].
  apply (finish_aborts_iff ex_builder_no_steps ex_builder_no_steps_reachable).
  - change (preparedModels (mDesc ex_builder_no_steps)) with (@nil ptr).
    intros pm Hin. inversion Hin.
  - split; [reflexivity|]. split; [exact Hroles | reflexivity].
Defined.

Lemma allocate_result_witness :
  exists n memory calls,
    allocate ex_builder_scenario_finished = Some (n, memory, calls)
    /\ (n = ANEURALNETWORKS_NO_ERROR <-> is_Some memory)
    /\ n <> ANEURALNETWORKS_BAD_STATE.
Proof.
  exists ANEURALNETWORKS_NO_ERROR, (Some ex_scenario_memory), [CallDeviceAllocate 1].
  assert (Hcall : allocate ex_builder_scenario_finished
                  = Some (ANEURALNETWORKS_NO_ERROR, Some ex_scenario_memory,
                          [CallDeviceAllocate 1]))
    by (vm_compute; reflexivity).
  destruct (allocate_result _ _ _ _ Hcall) as (Hmem & Hstate & _).
  split; [exact Hcall|]. split; [exact Hmem|].
  intros Hbad. apply Hstate in Hbad. discriminate.
Defined.


Lemma copy_frame_witness :
  exists n h',
    copy ex_heap 7 8 = Some (n, h')
    /\ h' !! 7 = ex_heap !! 7.
Proof.
  assert (Hcopy : exists h', copy ex_heap 7 8 = Some (ANEURALNETWORKS_BAD_DATA, h'))
    by (eexists; vm_compute; reflexivity).
  destruct Hcopy as [h' Hcopy].
  exists ANEURALNETWORKS_BAD_DATA, h'. split; [exact Hcopy|].
  apply (copy_frame ex_heap 7 8 _ h' Hcopy). discriminate.
Defined.

Lemma copy_success_witness :
  exists h' metadata,
    copy ex_heap_devices 8 9 = Some (ANEURALNETWORKS_NO_ERROR, h')
    /\ getMetadata (DeviceMemoryValidator {[ (1000, OUTPUT, 0) ]} (ex_tensor [2; 4])
                                          [2; 4] [2; 4] true)
       = Some metadata
    /\ fst (updateMetadata (newDeviceMemoryValidator {[ (2000, INPUT, 0) ]}
                                                     (ex_tensor [0; 4]) [0; 4])
                           metadata) = true.
Proof.
  assert (Hcopy : exists h', copy ex_heap_devices 8 9
                             = Some (ANEURALNETWORKS_NO_ERROR, h'))
    by (eexists; vm_compute; reflexivity).
  destruct Hcopy as [h' Hcopy].
  assert (Hne : 8 <> 9) by discriminate.
  destruct (copy_success ex_heap_devices 8 9
              (DeviceMemoryValidator {[ (1000, OUTPUT, 0) ]} (ex_tensor [2; 4])
                                     [2; 4] [2; 4] true)
              (newDeviceMemoryValidator {[ (2000, INPUT, 0) ]} (ex_tensor [0; 4]) [0; 4])
              h' Hne eq_refl eq_refl Hcopy)
    as (_ & metadata & Hmd & Hok & _).
  exists h', metadata. auto.
Defined.

Lemma copy_between_device_memories_witness :
  exists h' combined,
    copy ex_heap_devices 8 9 = Some (ANEURALNETWORKS_NO_ERROR, h')
    /\ combineDimensions [2; 4] [0; 4] = Some combined
    /\ getValidator h' 9
       = Some (DeviceMemoryValidator {[ (2000, INPUT, 0) ]} (ex_tensor [0; 4])
                                     [0; 4] combined true).
Proof.
  assert (Hcopy : exists h', copy ex_heap_devices 8 9
                             = Some (ANEURALNETWORKS_NO_ERROR, h'))
    by (eexists; vm_compute; reflexivity).
  destruct Hcopy as [h' Hcopy].
  assert (Hne : 8 <> 9) by discriminate.
  destruct (copy_between_device_memories ex_heap_devices 8 9 h'
              {[ (1000, OUTPUT, 0) ]} (ex_tensor [2; 4]) [2; 4] [2; 4] true
              {[ (2000, INPUT, 0) ]} (ex_tensor [0; 4]) [0; 4] [0; 4] false
              Hne eq_refl eq_refl Hcopy)
    as (_ & _ & combined & Hcomb & Hv & _).
  exists h', combined. auto.
Defined.

Lemma copy_hidl_size_mismatch_witness :
  exists h', copy ex_heap_ashmem 7 6 = Some (ANEURALNETWORKS_BAD_DATA, h').
Proof.
  apply (copy_hidl_size_mismatch ex_heap_ashmem 7 6 ex_ashmem_16
           (Memory_fromHidlMemory (mkHidlMemory true 32))).
  - discriminate.
  - reflexivity.
  - reflexivity.
  - eexists. reflexivity.
  - eexists. reflexivity.
  - left. reflexivity.
  - reflexivity.
  - reflexivity.
  - discriminate.
Defined.


Lemma MemoryFd_create_handle_witness :
  exists handle m,
    MemoryFd_create 4096 3 5 (2 ^ 32 + 8)
    = (ANEURALNETWORKS_NO_ERROR, Some (handle, m))
    /\ nh_data handle !! 0%nat = Some 105%Z
    /\ nativeHandle_offset handle = Some (2 ^ 32 + 8)%Z.
Proof.
  assert (Hcall : exists handle m,
            MemoryFd_create 4096 3 5 (2 ^ 32 + 8)
            = (ANEURALNETWORKS_NO_ERROR, Some (handle, m)))
    by (eexists _, _; vm_compute; reflexivity).
  destruct Hcall as (handle & m & Hcall).
  destruct (MemoryFd_create_handle _ _ _ _ _ _ _ Hcall)
    as (Hdup & _ & _ & Hoff & _).
  exists handle, m. split; [exact Hcall|]. split; [exact Hdup|].
  apply Hoff. reflexivity.
Defined.

End ConcreteLifecycle.
